(* ===== verification/_CoqProject ===== *)
-Q . S2P
Prelude.v
PyStr.v
UrlPattern.v
LinkExtract.v
Docx.v
PyFs.v
Convert.v
Batch.v
UiShell.v
