(* ===== verification/Prelude.v ===== *)
(** * Verification of pdf-to-docx (src/app.py)

    The program is one Python file.  [convert_pdf_to_word] (lines 11-84)
    turns one uploaded PDF into a Word file: it reads the upload, writes it
    to [input.pdf] in a fresh temporary directory, converts it with
    pdf2docx, gives every table the ['Table Grid'] style, collects the
    links of the PDF with PyMuPDF (annotation [uri]s, then [URL_PATTERN]
    matches of the page text, stripped and deduplicated), appends a page
    listing them when there are any, and copies the result to
    [<base name>.docx].  [convert_and_enable] (lines 86-102) converts a
    batch and zips the outputs when there is more than one.  The Gradio
    page (lines 104-155) resets the download button when the uploads
    change and runs the batch when Convert is pressed.

    ** Files, in dependency order

    - [Prelude] (this file): the effect monad [PyM S E A := S -> (E + A) * S]
      (a Python exception keeps the state changes made before it), its
      [let*] notation in [py_scope], [py_mapM] / [py_foldM] for list
      comprehensions and loops, monotone effects [py_mono] with the hint
      database [pydb] and the tactic [py_mono_auto], the step tactic
      [py_bind_step], and [append_new] / [dedup]: the
      [if u not in links: links.append(u)] idiom and its reference
      specification, related by [foldl_append_new].
    - [PyStr]: the CPython builtins the code calls: [py_rstrip]
      ([str.rstrip]), [basename], [splitext] ([posixpath] and
      [genericpath._splitext]), [path_join] ([os.path.join]) and
      [base_name_of] (line 32).
    - [UrlPattern]: [URL_PATTERN] (line 9) as [match_at] (scheme, then the
      greedy body class) and [URL_PATTERN.findall] (line 62) as [findall],
      a scan with fuel, and [scan_ok], the declarative leftmost scan it
      computes.
    - [LinkExtract]: the extraction loop (lines 51-66) as [extract_links]
      over PyMuPDF pages ([Page], [Annot] with its [info] dict as a gmap),
      and its specification [link_candidates].
    - [Docx]: the Word document as python-docx edits it: [style_tables]
      (lines 45-49) and [add_link_list] (lines 68-75).
    - [PyFs]: the state [FS] (files as a gmap from paths to [Blob]s,
      directories, the counter behind [mkdtemp]), the exceptions [PyExc],
      and the primitives [read_file], [write_file], [load_docx],
      [save_docx], [shutil_copy] (which raises [SameFileError] when source
      and destination are the same path, as [shutil.copyfile] does).
    - [Convert]: the interface [PdfBackend] (what the code asks of pdf2docx
      and PyMuPDF), the input shapes [PdfInput] (lines 19-31) and
      [convert_pdf_to_word]; [table_backend] and [demo_fs] give concrete
      runs.
    - [Batch]: [zip_write] (line 99) and [convert_and_enable].
    - [UiShell]: [reset_download], the event step [ui_step] of the Gradio
      wiring and the reachable states [ui_reachable].

    ** What the theorems show

    - Link extraction (C2, C8-C11, C17, C22): the loop computes [dedup] of
      the candidates in page order, annotations before text (a refinement
      of the reference specification [link_candidates]); no duplicates; no
      link lost or invented; text links start with a scheme and keep only
      body characters.  With the [info] keys PyMuPDF really provides the
      annotation branch adds nothing, and an annotation [uri] made only of
      stripped characters adds the empty link (findings).
    - The regular expression (C6, C7, C18): every match is a full match of
      the pattern, occurs in the text and is maximal; nothing is found
      exactly when no position matches; [findall] computes exactly the
      declarative leftmost, non-overlapping scan [scan_ok].
    - One conversion (C1, C3, C12, C13, C16, C25): the output path and the
      document it holds (its tables are those of pdf2docx, restyled, and
      the link page is appended exactly when there are links);
      [SameFileError] for uploads named [output] (a finding); input and
      library errors propagate; the temporary directory is never removed.
    - The batch (C4, C14, C15, C24, C26): the zip holds one entry per
      output, in order, named [<base name>.docx] after the upload's
      original name (so equal base names give equal entry names, a
      finding); outputs never overwrite each other; the first failure
      aborts the batch.
    - The interface (C5, C21): in every reachable state the download
      button is disabled without a value, or enabled on an existing file
      produced by converting the current uploads; a second successful
      Convert moves an enabled button to a new file (an enabled-to-enabled
      transition the specification does not list).
    - Python builtins (C19, C20, C23): the base-name round trip, the
      specification of [rstrip], and the base name of a file whose stem is
      only dots.

    ** Bounds and fuel

    [findall_fuel] is given [String.length s] units; each unit consumes at
    least one character ([match_at_shorter]), so more fuel changes nothing
    ([findall_fuel_stable]) and [findall] satisfies its unfolding equation
    [findall_eq] and the induction principle [findall_ind]: the fuel never
    runs out.  No machine integers occur.

    ** Not modelled

    The layout conversion of pdf2docx and the parsing of PyMuPDF are
    external libraries: they are the two functions of [PdfBackend], and
    every theorem holds for any implementation of them.  Gradio's rendering,
    the CSS and [demo.launch] (lines 110-119, 157-160) have no behaviour to
    verify.  [mkdtemp] takes names from a counter instead of random
    characters; the proofs only use that the name is new.  Strings are
    Latin-1 code points; [\s] is modelled on that range.  The file system
    has no permissions and every directory is writable.

    ** Plan for further work

    An invariant that [mkdtemp] names are fresh for any well-formed start
    state (not only for the directories the program creates itself); a
    refinement of the [UiShell] step function to the abstract
    download-button machine of the specification (disabled / enabled
    path), which the re-convert transition (C21) shows is not a simulation
    as the specification states it. *)

From stdpp Require Export base list strings gmap pretty.
From Stdlib Require Export Ascii.
#[export] Set Warnings "-clear-no-such-hyp".

(** stdpp makes [String.append] opaque to [simpl]; the string functions of
    the model compute on literals, so it is made transparent again. *)
Global Arguments String.append : simpl nomatch.

(** ** The Python effect monad

    The functions of [src/app.py] read and write files, create temporary
    directories and raise exceptions.  A Python exception does not roll
    back what the function already did to the file system, so the model is
    a state monad whose result is an exception or a value, with the final
    state kept in both cases: [PyM S E A := S -> (E + A) * S]. *)

Declare Scope py_scope.
Delimit Scope py_scope with py.

Definition PyM (S E A : Type) : Type := S -> (E + A) * S.

Definition py_ret {S E A} (a : A) : PyM S E A := fun s => (inr a, s).
Definition py_raise {S E A} (e : E) : PyM S E A := fun s => (inl e, s).
Definition py_bind {S E A B} (m : PyM S E A) (k : A -> PyM S E B) : PyM S E B :=
  fun s => match m s with
           | (inr a, s') => k a s'
           | (inl e, s') => (inl e, s')
           end.
Definition py_get {S E} : PyM S E S := fun s => (inr s, s).
Definition py_put {S E} (s : S) : PyM S E unit := fun _ => (inr tt, s).

(** [raise e if o is None else o]: lifts a fallible library result. *)
Definition py_of_option {S E A} (e : E) (o : option A) : PyM S E A :=
  match o with Some a => py_ret a | None => py_raise e end.

Notation "'let*' x ':=' c 'in' k" := (py_bind c (fun x => k))
  (at level 100, x pattern, c at level 99, right associativity,
   format "'let*'  x  ':='  c  'in' '//' k") : py_scope.
Notation "c ;;; k" := (py_bind c (fun _ => k))
  (at level 100, right associativity) : py_scope.

Local Open Scope py_scope.

(** [[f(x) for x in xs]]: evaluated left to right, the first exception
    aborts the comprehension. *)
Fixpoint py_mapM {S E A B} (f : A -> PyM S E B) (l : list A) : PyM S E (list B) :=
  match l with
  | [] => py_ret []
  | x :: l' => let* y := f x in let* ys := py_mapM f l' in py_ret (y :: ys)
  end.

(** [for x in xs: f(x)] run for its effects. *)
Fixpoint py_forM {S E A} (f : A -> PyM S E unit) (l : list A) : PyM S E unit :=
  match l with
  | [] => py_ret tt
  | x :: l' => f x ;;; py_forM f l'
  end.

(** [acc = f(acc, x) for x in xs], the first exception aborting. *)
Fixpoint py_foldM {S E A B} (f : A -> B -> PyM S E A) (acc : A) (l : list B) : PyM S E A :=
  match l with
  | [] => py_ret acc
  | x :: l' => let* acc' := f acc x in py_foldM f acc' l'
  end.

Create HintDb pydb.
Create Rewrite HintDb pyrw.

Section monad_laws.
Context {S E : Type}.

Lemma py_bind_ret_l {A B} (a : A) (k : A -> PyM S E B) s :
  py_bind (py_ret a) k s = k a s.
Proof. reflexivity. Qed.

Lemma py_bind_raise {A B} (e : E) (k : A -> PyM S E B) s :
  py_bind (py_raise e) k s = (inl e, s).
Proof. reflexivity. Qed.

Lemma py_bind_inr {A B} (m : PyM S E A) (k : A -> PyM S E B) s a s' :
  m s = (inr a, s') -> py_bind m k s = k a s'.
Proof. intros H. unfold py_bind. by rewrite H. Qed.

Lemma py_bind_inl {A B} (m : PyM S E A) (k : A -> PyM S E B) s e s' :
  m s = (inl e, s') -> py_bind m k s = (inl e, s').
Proof. intros H. unfold py_bind. by rewrite H. Qed.

Lemma py_of_option_ok {A} (e : E) (o : option A) a (s : S) :
  o = Some a -> py_of_option e o s = (inr a, s).
Proof. by intros ->. Qed.

Lemma py_bind_assoc {A B C} (m : PyM S E A) (k : A -> PyM S E B)
      (h : B -> PyM S E C) s :
  py_bind (py_bind m k) h s = py_bind m (fun a => py_bind (k a) h) s.
Proof. unfold py_bind. by destruct (m s) as [[e|a] s']. Qed.

(** The comprehension succeeds exactly when every call succeeds, each
    in the state the previous one left. *)
Inductive mapM_runs {A B} (f : A -> PyM S E B) :
    list A -> S -> list B -> S -> Prop :=
| mapM_runs_nil s : mapM_runs f [] s [] s
| mapM_runs_cons x l s s1 s2 y ys :
    f x s = (inr y, s1) -> mapM_runs f l s1 ys s2 ->
    mapM_runs f (x :: l) s (y :: ys) s2.

Lemma py_mapM_ok {A B} (f : A -> PyM S E B) l s ys s' :
  py_mapM f l s = (inr ys, s') <-> mapM_runs f l s ys s'.
Proof.
  revert s ys. induction l as [|x l IH]; intros s ys; simpl.
  - split; [intros [= <- <-]; constructor | by inversion 1].
  - unfold py_bind. split.
    + destruct (f x s) as [[e|y] s1] eqn:Hf; [done|].
      destruct (py_mapM f l s1) as [[e|ys'] s2] eqn:Hl; [done|].
      intros [= <- <-]. econstructor; [done|]. by apply IH.
    + inversion 1 as [|? ? ? s1 ? y' ys' Hf Hl]; subst.
      rewrite Hf. by apply IH in Hl as ->.
Qed.

(** The comprehension stops at the first element that raises. *)
Lemma py_mapM_fail {A B} (f : A -> PyM S E B) pre x post s ys s1 e s2 :
  mapM_runs f pre s ys s1 -> f x s1 = (inl e, s2) ->
  py_mapM f (pre ++ x :: post) s = (inl e, s2).
Proof.
  induction 1 as [s|x' l s s1' s2' y ys' Hf Hl IH]; intros Hx; simpl.
  - unfold py_bind. by rewrite Hx.
  - unfold py_bind at 1. rewrite Hf. unfold py_bind at 1. by rewrite IH.
Qed.

Lemma mapM_runs_length {A B} (f : A -> PyM S E B) l s ys s' :
  mapM_runs f l s ys s' -> length ys = length l.
Proof. induction 1; simpl; auto. Qed.
End monad_laws.

(** Runs the first step of [py_bind m k s] when [tac] proves
    [m s = (inr a, s')], and continues with [k a s']. *)
Ltac py_bind_step tac := erewrite py_bind_inr; [|tac]; cbv beta iota zeta.

(** ** Monotone effects

    A computation is monotone for a preorder [R] on states when every run
    ends in an [R]-larger state, exception or not.  The file system of the
    program only grows, and this is how the model says so. *)
Section mono.
Context {S E : Type} (R : relation S) `{!PreOrder R}.

Definition py_mono {A} (m : PyM S E A) : Prop := forall s, R s (snd (m s)).

Lemma py_mono_ret {A} (a : A) : py_mono (py_ret a).
Proof. intros s. simpl. reflexivity. Qed.

Lemma py_mono_raise {A} (e : E) : py_mono (A:=A) (py_raise e).
Proof. intros s. simpl. reflexivity. Qed.

Lemma py_mono_bind {A B} (m : PyM S E A) (k : A -> PyM S E B) :
  py_mono m -> (forall a, py_mono (k a)) -> py_mono (py_bind m k).
Proof.
  intros Hm Hk s. unfold py_bind. specialize (Hm s).
  destruct (m s) as [[e|a] s']; simpl in *; [done|].
  etrans; [exact Hm | apply Hk].
Qed.

Lemma py_mono_of_option {A} (e : E) (o : option A) : py_mono (py_of_option e o).
Proof. destruct o; [apply py_mono_ret | apply py_mono_raise]. Qed.

Lemma py_mono_mapM {A B} (f : A -> PyM S E B) l :
  (forall x, py_mono (f x)) -> py_mono (py_mapM f l).
Proof.
  intros Hf. induction l as [|x l IH]; simpl.
  - apply py_mono_ret.
  - apply py_mono_bind; [done|]. intros y.
    apply py_mono_bind; [done|]. intros ys. apply py_mono_ret.
Qed.

Lemma py_mono_forM {A} (f : A -> PyM S E unit) l :
  (forall x, py_mono (f x)) -> py_mono (py_forM f l).
Proof.
  intros Hf. induction l as [|x l IH]; simpl.
  - apply py_mono_ret.
  - apply py_mono_bind; [done|]. intros _. done.
Qed.

Lemma py_mono_foldM {A B} (f : A -> B -> PyM S E A) acc l :
  (forall a x, py_mono (f a x)) -> py_mono (py_foldM f acc l).
Proof.
  intros Hf. revert acc. induction l as [|x l IH]; intros acc; simpl.
  - apply py_mono_ret.
  - apply py_mono_bind; [done|]. intros. apply IH.
Qed.
End mono.

#[export] Hint Extern 1 (py_mono _ (py_ret _)) => apply py_mono_ret; tc_solve : pydb.
#[export] Hint Extern 1 (py_mono _ (py_raise _)) => apply py_mono_raise; tc_solve : pydb.
#[export] Hint Extern 1 (py_mono _ (py_of_option _ _)) =>
  apply py_mono_of_option; tc_solve : pydb.
(** [apply py_mono_bind] may leave the preorder instance as a goal. *)
Ltac py_mono_bind_tac := apply py_mono_bind; try tc_solve.

#[export] Hint Extern 2 (py_mono _ (py_bind _ _)) => py_mono_bind_tac : pydb.
#[export] Hint Extern 2 (py_mono _ (py_mapM _ _)) =>
  apply py_mono_mapM; try tc_solve : pydb.
#[export] Hint Extern 2 (py_mono _ (py_foldM _ _ _)) =>
  apply py_mono_foldM; try tc_solve : pydb.
#[export] Hint Extern 2 (py_mono _ (py_forM _ _)) =>
  apply py_mono_forM; try tc_solve : pydb.

(** Proves [py_mono R m] for a computation built from monotone pieces. *)
Ltac py_mono_auto :=
  repeat match goal with
         | |- forall _, _ => intros
         | |- py_mono _ (py_bind _ _) => py_mono_bind_tac
         | |- py_mono _ (match ?x with _ => _ end) => destruct x
         | |- py_mono _ (if ?b then _ else _) => destruct b
         | |- py_mono _ _ => solve [eauto with pydb]
         end.

(** ** Generic list lemmas *)

Lemma Forall2_impl_elem {A B} (R R' : A -> B -> Prop) l k :
  Forall2 R l k -> (forall x y, x ∈ l -> R x y -> R' x y) -> Forall2 R' l k.
Proof.
  induction 1 as [|x y l k Hxy Hlk IH]; intros Himp; constructor.
  - apply Himp; [left|done].
  - apply IH. intros. apply Himp; [by right|done].
Qed.

(** ** Ordered sets as Python lists

    [if u not in links: links.append(u)] keeps a list without duplicates
    in first-seen order.  [dedup] is the reference definition of that
    order: an element is kept where it first occurs. *)
Section dedup.
Context {A : Type} `{EqDecision A}.

Definition append_new (l : list A) (x : A) : list A :=
  if decide (x ∈ l) then l else l ++ [x].

Fixpoint dedup (l : list A) : list A :=
  match l with
  | [] => []
  | x :: l' => x :: filter (fun y => y <> x) (dedup l')
  end.

Lemma elem_of_dedup l x : x ∈ dedup l <-> x ∈ l.
Proof.
  induction l as [|y l IH]; simpl; [done|].
  rewrite !elem_of_cons, list_elem_of_filter, IH.
  destruct (decide (x = y)); naive_solver.
Qed.

Lemma NoDup_dedup l : NoDup (dedup l).
Proof.
  induction l as [|y l IH]; simpl; [constructor|].
  constructor.
  - rewrite list_elem_of_filter. naive_solver.
  - by apply NoDup_filter.
Qed.

(** The loop invariant of [for u in us: append_new]: the accumulator is
    followed by the first occurrences of the new elements. *)
Lemma foldl_append_new acc l :
  foldl append_new acc l = acc ++ filter (fun y => y ∉ acc) (dedup l).
Proof.
  revert acc. induction l as [|x l IH]; intros acc; simpl.
  - by rewrite app_nil_r.
  - rewrite IH. unfold append_new. destruct (decide (x ∈ acc)) as [Hx|Hx].
    + rewrite filter_cons_False by naive_solver.
      f_equal. symmetry. apply list_filter_filter_l. naive_solver.
    + rewrite filter_cons_True by done. rewrite <- app_assoc. simpl.
      f_equal. f_equal. rewrite list_filter_filter.
      apply list_filter_iff. intros y. rewrite elem_of_app, list_elem_of_singleton.
      naive_solver.
Qed.

Lemma foldl_append_new_nil l : foldl append_new [] l = dedup l.
Proof.
  rewrite foldl_append_new. simpl.
  induction (dedup l) as [|y k IH]; simpl; [done|].
  rewrite filter_cons_True by set_solver. by f_equal.
Qed.

Lemma dedup_app l1 l2 :
  dedup (l1 ++ l2) = dedup l1 ++ filter (fun y => y ∉ l1) (dedup l2).
Proof.
  rewrite <- foldl_append_new_nil, foldl_app, foldl_append_new_nil.
  rewrite foldl_append_new. f_equal.
  apply list_filter_iff. intros y. by rewrite elem_of_dedup.
Qed.

(** A value that occurs in the input occurs exactly once in [dedup]. *)
Lemma dedup_count_one l x : x ∈ l -> count_occ (decide_rel (=)) (dedup l) x = 1.
Proof.
  intros Hx. apply (proj2 (elem_of_dedup l x)), list_elem_of_In in Hx.
  pose proof (NoDup_dedup l) as Hnd. apply NoDup_ListNoDup in Hnd.
  exact (proj1 (NoDup_count_occ' (decide_rel (=)) _) Hnd x Hx).
Qed.
End dedup.

#[export] Hint Resolve NoDup_dedup : pydb.
#[export] Hint Rewrite @foldl_append_new_nil @elem_of_dedup : pyrw.
