(* ===== verification/PyStr.v ===== *)
(** * Python string and path builtins used by src/app.py

    [str.rstrip(chars)] (lines 58 and 63), [os.path.basename] and
    [os.path.splitext] (line 32) and [os.path.join] (lines 35, 40, 78, 96),
    with the semantics of CPython's [posixpath] and [genericpath].  Strings
    are Rocq strings read as sequences of Latin-1 code points. *)

From S2P Require Import Prelude.
Local Open Scope string_scope.

(** [c in s] for a character. *)
Fixpoint str_has (c : ascii) (s : string) : bool :=
  match s with
  | EmptyString => false
  | String x s' => bool_decide (x = c) || str_has c s'
  end.

(** Every character of [s] satisfies [p]. *)
Fixpoint str_all (p : ascii -> bool) (s : string) : bool :=
  match s with
  | EmptyString => true
  | String x s' => p x && str_all p s'
  end.

(** [s.rstrip(chars)]: removes the longest suffix made of characters of
    [chars]. *)
Fixpoint py_rstrip (chars : string) (s : string) : string :=
  match s with
  | EmptyString => EmptyString
  | String c s' =>
      match py_rstrip chars s' with
      | EmptyString => if str_has c chars then EmptyString else String c EmptyString
      | r => String c r
      end
  end.

(** Split at the last occurrence of [c]: [s = before ++ c :: after] with
    no [c] in [after] ([s.rfind(c)] and the two slices around it). *)
Fixpoint rsplit_last (c : ascii) (s : string) : option (string * string) :=
  match s with
  | EmptyString => None
  | String x s' =>
      match rsplit_last c s' with
      | Some (b, a) => Some (String x b, a)
      | None => if bool_decide (x = c) then Some (EmptyString, s') else None
      end
  end.

Definition slash : ascii := "/".
Definition dot : ascii := ".".

(** [posixpath.basename(p)]: [p[p.rfind('/') + 1:]]. *)
Definition basename (p : string) : string :=
  match rsplit_last slash p with
  | Some (_, a) => a
  | None => p
  end.

(** [genericpath._splitext(p, '/', None, '.')]: the extension starts at the
    last dot of the last path component, unless every character of the
    component before that dot is a dot (leading dots do not start an
    extension). *)
Definition splitext (p : string) : string * string :=
  let '(head, name) :=
    match rsplit_last slash p with
    | Some (b, a) => (b ++ String slash EmptyString, a)
    | None => (EmptyString, p)
    end in
  match rsplit_last dot name with
  | Some (root, ext) =>
      if str_all (fun x => bool_decide (x = dot)) root then (p, EmptyString)
      else (head ++ root, String dot ext)
  | None => (p, EmptyString)
  end.

(** [posixpath.join(a, b)] for two components. *)
Definition path_join (a b : string) : string :=
  match b with
  | String c _ => if bool_decide (c = slash) then b
                  else match a with
                       | EmptyString => b
                       | _ => if str_has slash (String.substring (String.length a - 1) 1 a)
                              then a ++ b else a ++ String slash b
                       end
  | EmptyString =>
      match a with
      | EmptyString => b
      | _ => if str_has slash (String.substring (String.length a - 1) 1 a)
             then a else a ++ String slash EmptyString
      end
  end.

(** [os.path.splitext(os.path.basename(orig_name))[0]] (line 32). *)
Definition base_name_of (orig_name : string) : string :=
  fst (splitext (basename orig_name)).

(** ** Lemmas *)

Lemma str_has_app c a b : str_has c (a ++ b) = str_has c a || str_has c b.
Proof. induction a as [|x a IH]; simpl; [done|]. by rewrite IH, orb_assoc. Qed.

Lemma str_all_app p a b : str_all p (a ++ b) = str_all p a && str_all p b.
Proof. induction a as [|x a IH]; simpl; [done|]. by rewrite IH, andb_assoc. Qed.

Lemma str_has_mid c b a : str_has c (b ++ String c a) = true.
Proof. rewrite str_has_app. simpl. rewrite bool_decide_true by done. by destruct (str_has c b). Qed.

Lemma rsplit_last_none c s : rsplit_last c s = None <-> str_has c s = false.
Proof.
  induction s as [|x s IH]; simpl; [done|].
  destruct (rsplit_last c s) as [[??]|] eqn:E.
  - split; [done|]. intros H. apply orb_false_iff in H as [_ H].
    apply IH in H. congruence.
  - case_bool_decide; simpl; [done|]. by apply IH.
Qed.

Lemma rsplit_last_spec c s b a :
  rsplit_last c s = Some (b, a) <-> s = b ++ String c a /\ str_has c a = false.
Proof.
  revert b a. induction s as [|x s IH]; intros b a; simpl.
  - split; [done|]. intros [H _]. by destruct b.
  - destruct (rsplit_last c s) as [[b' a']|] eqn:E.
    + destruct (proj1 (IH b' a') eq_refl) as [Hs Ha']. split.
      * intros [= <- <-]. by subst s.
      * intros [Hs' Ha]. destruct b as [|y b]; simpl in Hs'; injection Hs' as -> ->.
        -- by rewrite Hs, str_has_mid in Ha.
        -- by injection (proj2 (IH b a) (conj eq_refl Ha)) as -> ->.
    + apply rsplit_last_none in E. case_bool_decide as Hx; subst.
      * split; [by intros [= <- <-]|].
        intros [Hs Ha]. destruct b as [|y b]; simpl in Hs.
        -- by injection Hs as ->.
        -- injection Hs as -> ->. by rewrite str_has_mid in E.
      * split; [done|]. intros [Hs Ha].
        destruct b as [|y b]; simpl in Hs; injection Hs as -> ->; [done|].
        by rewrite str_has_mid in E.
Qed.

Lemma basename_app_slash d x :
  str_has slash x = false -> basename (d ++ String slash x) = x.
Proof.
  intros Hx. unfold basename.
  by rewrite (proj2 (rsplit_last_spec slash (d ++ String slash x) d x) (conj eq_refl Hx)).
Qed.

Lemma basename_no_slash x : str_has slash x = false -> basename x = x.
Proof. intros Hx. unfold basename. by rewrite (proj2 (rsplit_last_none _ _) Hx). Qed.

Lemma basename_no_slash_result p : str_has slash (basename p) = false.
Proof.
  unfold basename. destruct (rsplit_last slash p) as [[b a]|] eqn:E.
  - by apply rsplit_last_spec in E as [_ ?].
  - by apply rsplit_last_none in E.
Qed.

#[export] Hint Rewrite str_has_app str_all_app : pyrw.

(** [splitext] of a last path component [b.e] whose extension [e] has no
    dot: the extension is split off unless [b] is only dots. *)
Lemma splitext_component b e :
  str_has slash b = false -> str_has slash e = false -> str_has dot e = false ->
  splitext (b ++ String dot e) =
    if str_all (fun x => bool_decide (x = dot)) b then (b ++ String dot e, EmptyString)
    else (b, String dot e).
Proof.
  intros Hb He1 He2. unfold splitext.
  rewrite (proj2 (rsplit_last_none _ _)) by (rewrite str_has_app; simpl; by rewrite Hb, He1).
  by rewrite (proj2 (rsplit_last_spec dot (b ++ String dot e) b e) (conj eq_refl He2)).
Qed.

(** Python's [rstrip] on a concatenation: the right part is stripped first,
    and the left part only when the right part vanishes. *)
Lemma py_rstrip_app ch a b :
  py_rstrip ch (a ++ b) =
  match py_rstrip ch b with EmptyString => py_rstrip ch a | r => a ++ r end.
Proof.
  induction a as [|c a IH]; simpl.
  - change (EmptyString ++ b) with b. by destruct (py_rstrip ch b).
  - rewrite IH. destruct (py_rstrip ch b) as [|x r] eqn:Hb; [done|].
    by destruct a.
Qed.

(** What [rstrip] removes is a suffix made of characters of [chars]. *)
Lemma py_rstrip_suffix ch s :
  exists t, s = py_rstrip ch s ++ t /\ str_all (fun c => str_has c ch) t = true.
Proof.
  induction s as [|c s (t & Hs & Ht)]; simpl; [by exists EmptyString|].
  destruct (py_rstrip ch s) as [|x r] eqn:Hr; simpl in Hs; subst s; [|by exists t].
  destruct (str_has c ch) eqn:Hc; [|by exists t].
  exists (String c t). simpl. by rewrite Hc, Ht.
Qed.

(** What [rstrip] keeps does not end with a character of [chars]. *)
Lemma py_rstrip_last ch s r c :
  py_rstrip ch s = r ++ String c EmptyString -> str_has c ch = false.
Proof.
  revert r. induction s as [|x s IH]; intros r; simpl; [by destruct r|].
  destruct (py_rstrip ch s) as [|y r0] eqn:Hr.
  - destruct (str_has x ch) eqn:Hx; [by destruct r|].
    destruct r as [|? [|??]]; simpl; [by intros [= <-]|done..].
  - destruct r as [|z r']; simpl; [by intros [= _ ?]; destruct r0|].
    intros [= _ H]. by apply (IH r').
Qed.

(** C20: what [rstrip] removes is a suffix of characters of [chars], and what
    it keeps does not end with one. *)
Lemma py_rstrip_spec ch s :
  exists t, s = py_rstrip ch s ++ t /\
            str_all (fun c => str_has c ch) t = true /\
            forall r c, py_rstrip ch s = r ++ String c EmptyString -> str_has c ch = false.
Proof.
  destruct (py_rstrip_suffix ch s) as (t & Hs & Ht).
  exists t. split_and!; [done..|]. apply py_rstrip_last.
Qed.

(** A string made only of stripped characters is stripped to nothing. *)
Lemma py_rstrip_all ch s : str_all (fun c => str_has c ch) s = true -> py_rstrip ch s = EmptyString.
Proof.
  induction s as [|c s IH]; simpl; [done|]. intros [Hc Hs]%andb_true_iff.
  by rewrite IH, Hc.
Qed.

(** [rstrip] keeps a string whose last character is not stripped. *)
Lemma py_rstrip_keep ch s c :
  str_has c ch = false -> py_rstrip ch (s ++ String c EmptyString) = s ++ String c EmptyString.
Proof. intros Hc. rewrite py_rstrip_app. simpl. by rewrite Hc. Qed.

(** C19: round trip of the output name: [splitext(basename(d/b.e))[0] = b] when [b] names a file that has a
    character other than a dot and [e] is a plain extension. *)
Lemma base_name_of_app d b e :
  str_has slash b = false -> str_has slash e = false -> str_has dot e = false ->
  str_all (fun x => bool_decide (x = dot)) b = false ->
  base_name_of (d ++ String slash (b ++ String dot e)) = b.
Proof.
  intros Hb He1 He2 Hd. unfold base_name_of.
  rewrite basename_app_slash, splitext_component, Hd by (by autorewrite with pyrw; simpl; rewrite ?Hb, ?He1).
  done.
Qed.

Lemma base_name_of_plain b e :
  str_has slash b = false -> str_has slash e = false -> str_has dot e = false ->
  str_all (fun x => bool_decide (x = dot)) b = false ->
  base_name_of (b ++ String dot e) = b.
Proof.
  intros Hb He1 He2 Hd. unfold base_name_of.
  rewrite basename_no_slash, splitext_component, Hd by (by autorewrite with pyrw; simpl; rewrite ?Hb, ?He1).
  done.
Qed.

Lemma str_app_assoc a b c : a ++ (b ++ c) = (a ++ b) ++ c.
Proof. induction a as [|x a IH]; simpl; congruence. Qed.

Lemma str_length_app a b : String.length (a ++ b) = String.length a + String.length b.
Proof. induction a as [|x a IH]; simpl; auto. Qed.

(** [os.path.join(a, b)] for a directory [a] whose last character is not a
    slash and a relative name [b]. *)
Lemma path_join_plain a x b c :
  x <> slash -> c <> slash ->
  path_join (a ++ String x EmptyString) (String c b) = a ++ String x (String slash (String c b)).
Proof.
  intros Hx Hc. unfold path_join. rewrite bool_decide_false by done.
  assert (Hlast : String.substring (String.length (a ++ String x EmptyString) - 1) 1
                    (a ++ String x EmptyString) = String x EmptyString).
  { rewrite str_length_app. simpl. rewrite Nat.add_sub.
    clear. induction a as [|y a IH]; [done|]. exact IH. }
  rewrite Hlast. simpl. rewrite bool_decide_false by done. simpl.
  destruct (a ++ String x EmptyString) eqn:E; [by destruct a|].
  rewrite <- E, <- str_app_assoc. done.
Qed.

Lemma base_name_of_no_slash p : str_has slash (base_name_of p) = false.
Proof.
  unfold base_name_of, splitext. pose proof (basename_no_slash_result p) as Hb.
  rewrite (proj2 (rsplit_last_none _ _) Hb).
  destruct (rsplit_last dot (basename p)) as [[root ext]|] eqn:E; [|done].
  destruct (str_all _ root); [done|]. simpl.
  apply rsplit_last_spec in E as [Hr _]. rewrite Hr, str_has_app in Hb.
  by apply orb_false_iff in Hb as [? _].
Qed.

(** ** Witnesses *)

Lemma base_name_of_app_witness :
  base_name_of ("/tmp/gradio/abc" ++ String slash ("report" ++ String dot "pdf")) = "report".
Proof. apply base_name_of_app; vm_compute; reflexivity. Defined.

(** C23: a file name whose stem before the last dot consists only of dots
    (such as [.pdf] or [..pdf]) has no extension for [splitext]: its base
    name is the whole file name, extension included, so the output of
    [/up/.pdf] is named [.pdf.docx]. *)
Lemma base_name_of_dotfile d b e :
  str_has slash b = false -> str_has slash e = false -> str_has dot e = false ->
  str_all (fun x => bool_decide (x = dot)) b = true ->
  base_name_of (d ++ String slash (b ++ String dot e)) = b ++ String dot e.
Proof.
  intros Hb He1 He2 Hd. unfold base_name_of.
  rewrite basename_app_slash, splitext_component, Hd by (by autorewrite with pyrw; simpl; rewrite ?Hb, ?He1).
  done.
Qed.

Lemma base_name_of_dotfile_witness :
  base_name_of ("/up" ++ String slash ("" ++ String dot "pdf")) = ".pdf".
Proof. apply (base_name_of_dotfile "/up" "" "pdf"); vm_compute; reflexivity. Defined.
