(* ===== verification/UrlPattern.v ===== *)
(** * URL_PATTERN and re.findall (src/app.py, lines 9 and 62)

    [URL_PATTERN], the raw string [(https?://[^\s<>Q\'\)\]]+)] where Q is a
    double quote, has one group
    that spans the whole match, so [URL_PATTERN.findall(text)] is the list
    of the successive non-overlapping matches, scanned left to right.  The
    pattern has no alternative after the greedy [+], so a match at a
    position is unique: the scheme, then the longest run of body
    characters, which must not be empty.  [findall] is written with fuel
    (one unit per character of the text) and [findall_eq] shows that the
    fuel never runs out. *)

From S2P Require Import Prelude PyStr.
Local Open Scope string_scope.

(** [\s] in a [str] pattern is [str.isspace()]; on Latin-1 code points
    that is 9-13, 28-32, 133 and 160. *)
Definition py_is_space (c : ascii) : bool :=
  let n := nat_of_ascii c in
  (((9 <=? n) && (n <=? 13)) || ((28 <=? n) && (n <=? 32)) || (n =? 133) || (n =? 160))%nat.

(** The other excluded characters of the class: [<], [>], the double
    quote (code 34), the single quote, [)] and []]. *)
Definition url_excluded : string :=
  String "<" (String ">" (String (ascii_of_nat 34)
    (String "'" (String ")" (String "]" EmptyString))))).

(** The body class [[^\s<>Q\'\)\]]], Q the double quote. *)
Definition url_body_char (c : ascii) : bool :=
  negb (py_is_space c || str_has c url_excluded).

(** [https?://]: the optional [s] is tried first, then skipped. *)
Definition match_scheme (s : string) : option (string * string) :=
  match s with
  | String "h" (String "t" (String "t" (String "p" r))) =>
      match r with
      | String "s" (String ":" (String "/" (String "/" r'))) => Some ("https://", r')
      | String ":" (String "/" (String "/" r')) => Some ("http://", r')
      | _ => None
      end
  | _ => None
  end.

(** The greedy [[...]+]: the longest prefix of body characters, and the
    rest of the text. *)
Fixpoint span_url (s : string) : string * string :=
  match s with
  | EmptyString => (EmptyString, EmptyString)
  | String c s' =>
      if url_body_char c then let '(b, r) := span_url s' in (String c b, r)
      else (EmptyString, s)
  end.

(** [URL_PATTERN.match(s)]: the match at the start of [s] and the text
    after it. *)
Definition match_at (s : string) : option (string * string) :=
  match match_scheme s with
  | Some (scheme, r) =>
      match span_url r with
      | (EmptyString, _) => None
      | (body, rest) => Some (scheme ++ body, rest)
      end
  | None => None
  end.

(** [URL_PATTERN.findall(text)]: try a match at the current position; on
    success continue after it, otherwise one character further. *)
Fixpoint findall_fuel (fuel : nat) (s : string) : list string :=
  match fuel with
  | O => []
  | S fuel' =>
      match s with
      | EmptyString => []
      | String _ s' =>
          match match_at s with
          | Some (m, rest) => m :: findall_fuel fuel' rest
          | None => findall_fuel fuel' s'
          end
      end
  end.

Definition findall (s : string) : list string := findall_fuel (String.length s) s.

(** A string the pattern matches in full (the language of the regex). *)
Definition url_full_match (m : string) : bool :=
  match match_scheme m with
  | Some (_, body) => bool_decide (body <> EmptyString) && str_all url_body_char body
  | None => false
  end.

(** The match ends at the end of the text or before a character the body
    class excludes. *)
Definition match_ends (rest : string) : Prop :=
  match rest with
  | EmptyString => True
  | String c _ => url_body_char c = false
  end.

(** ** Lemmas *)

Lemma match_scheme_spec s scheme r :
  match_scheme s = Some (scheme, r) ->
  s = scheme ++ r /\ (scheme = "http://" \/ scheme = "https://").
Proof.
  unfold match_scheme. intros H.
  repeat (case_match; simplify_eq; try done); auto.
Qed.

Lemma match_scheme_app scheme r :
  (scheme = "http://" \/ scheme = "https://") ->
  match_scheme (scheme ++ r) = Some (scheme, r).
Proof. by intros [-> | ->]. Qed.

Lemma span_url_spec s b r :
  span_url s = (b, r) -> s = b ++ r /\ str_all url_body_char b = true /\ match_ends r.
Proof.
  revert b r. induction s as [|c s IH]; intros b r; simpl.
  - by intros [= <- <-].
  - destruct (url_body_char c) eqn:Hc.
    + destruct (span_url s) as [b' r'] eqn:E. intros [= <- <-].
      destruct (IH _ _ eq_refl) as (-> & Hb & Hr). simpl. by rewrite Hc, Hb.
    + intros [= <- <-]. done.
Qed.

Lemma span_url_app b r :
  str_all url_body_char b = true -> match_ends r -> span_url (b ++ r) = (b, r).
Proof.
  induction b as [|c b IH]; simpl.
  - intros _. destruct r as [|c r]; simpl; [done|]. intros ->. done.
  - intros [Hc Hb]%andb_true_iff Hr. rewrite Hc, IH by done. done.
Qed.

Lemma match_at_spec s m rest :
  match_at s = Some (m, rest) ->
  s = m ++ rest /\ url_full_match m = true /\ match_ends rest.
Proof.
  unfold match_at. destruct (match_scheme s) as [[scheme r]|] eqn:Hs; [|done].
  destruct (span_url r) as [[|c b] rest'] eqn:Hsp; [done|]. intros [= <- <-].
  apply match_scheme_spec in Hs as [-> Hsch].
  apply span_url_spec in Hsp as (-> & Hb & Hr).
  split_and!; [by rewrite str_app_assoc| |done].
  unfold url_full_match. rewrite match_scheme_app by done.
  rewrite bool_decide_true by done. done.
Qed.

Lemma match_at_shorter s m rest :
  match_at s = Some (m, rest) -> String.length rest < String.length s.
Proof.
  intros (-> & Hm & _)%match_at_spec. rewrite str_length_app.
  unfold url_full_match in Hm. destruct (match_scheme m) as [[sch b]|] eqn:E; [|done].
  apply match_scheme_spec in E as [-> [-> | ->]]; simpl; lia.
Qed.

Lemma findall_fuel_stable n1 n2 s :
  String.length s <= n1 -> String.length s <= n2 -> findall_fuel n1 s = findall_fuel n2 s.
Proof.
  revert n2 s. induction n1 as [|n1 IH]; intros [|n2] s H1 H2; simpl.
  - done.
  - destruct s; [done | simpl in H1; lia].
  - destruct s; [done | simpl in H2; lia].
  - destruct s as [|c s]; [done|]. simpl in H1, H2.
    destruct (match_at (String c s)) as [[m rest]|] eqn:E.
    + apply match_at_shorter in E. simpl in E. f_equal. apply IH; lia.
    + apply IH; lia.
Qed.

(** The scan as a recursion equation: [findall] is total and unfolds one
    step at a time. *)
Lemma findall_eq s :
  findall s =
  match s with
  | EmptyString => []
  | String _ s' =>
      match match_at s with
      | Some (m, rest) => m :: findall rest
      | None => findall s'
      end
  end.
Proof.
  unfold findall at 1. destruct s as [|c s]; [done|]. simpl String.length. simpl.
  destruct (match_at (String c s)) as [[m rest]|] eqn:E.
  - apply match_at_shorter in E. simpl in E. f_equal. apply findall_fuel_stable; lia.
  - apply findall_fuel_stable; lia.
Qed.

(** Induction along the scan of [findall]. *)
Lemma findall_ind (P : string -> Prop) :
  P EmptyString ->
  (forall c s m rest, match_at (String c s) = Some (m, rest) -> P rest -> P (String c s)) ->
  (forall c s, match_at (String c s) = None -> P s -> P (String c s)) ->
  forall s, P s.
Proof.
  intros H0 Hm Hn s. remember (String.length s) as n eqn:Hn'.
  revert s Hn'. induction (lt_wf n) as [n _ IH]. intros [|c s] ->; [done|].
  destruct (match_at (String c s)) as [[m rest]|] eqn:E.
  - eapply Hm; [done|]. eapply IH; [|done]. by eapply match_at_shorter.
  - apply Hn; [done|]. eapply IH; [|done]. simpl. lia.
Qed.

#[export] Hint Resolve match_at_spec : pydb.

Lemma findall_cons_match c s m rest :
  match_at (String c s) = Some (m, rest) -> findall (String c s) = m :: findall rest.
Proof. intros E. by rewrite findall_eq, E. Qed.

Lemma findall_cons_none c s :
  match_at (String c s) = None -> findall (String c s) = findall s.
Proof. intros E. by rewrite findall_eq, E. Qed.

(** Every string [findall] returns is the match at its own position of
    the text. *)
Lemma findall_elem s m :
  m ∈ findall s -> exists a rest, s = a ++ m ++ rest /\ match_at (m ++ rest) = Some (m, rest).
Proof.
  revert m. induction s as [|c s m0 rest E IH|c s E IH] using findall_ind; intros m.
  - rewrite findall_eq. intros ?%elem_of_nil. done.
  - rewrite (findall_cons_match _ _ _ _ E), elem_of_cons.
    destruct (match_at_spec _ _ _ E) as (Hs & _). rewrite Hs in E |- *.
    intros [-> | (a & r & -> & Hm)%IH]; [by exists EmptyString, rest|].
    exists (m0 ++ a), r. split; [|done]. by rewrite !str_app_assoc.
  - rewrite (findall_cons_none _ _ E). intros (a & r & -> & Hm)%IH.
    by exists (String c a), r.
Qed.

(** [findall] finds nothing when the pattern matches at no position. *)
Lemma findall_nil_none s :
  (forall a r, s = a ++ r -> match_at r = None) -> findall s = [].
Proof.
  induction s as [|c s m0 rest E IH|c s E IH] using findall_ind; intros H.
  - by rewrite findall_eq.
  - by rewrite (H EmptyString (String c s) eq_refl) in E.
  - rewrite (findall_cons_none _ _ E). apply IH. intros a r ->. by apply (H (String c a)).
Qed.

(** ** Properties of the scan *)

(** C6: every string [findall] returns is matched in full by
    [URL_PATTERN] (a scheme [http://] or [https://] followed by one or more
    body characters), occurs in the text, and is maximal: the text goes on
    after it only with a character the body class excludes. *)
Theorem findall_sound s m :
  m ∈ findall s ->
  url_full_match m = true /\ exists a rest, s = a ++ m ++ rest /\ match_ends rest.
Proof.
  intros (a & rest & -> & (_ & Hfull & Hend)%match_at_spec)%findall_elem.
  split; [done|]. by exists a, rest.
Qed.

(** C7: [findall] finds nothing exactly when the pattern matches at no
    position of the text. *)
Theorem findall_nil_iff s :
  findall s = [] <-> forall a r, s = a ++ r -> match_at r = None.
Proof.
  induction s as [|c s m0 rest E IH|c s E IH] using findall_ind.
  - split; [|done]. intros _ [|??] r; simpl; [intros <-; done|done].
  - rewrite (findall_cons_match _ _ _ _ E). split; [done|].
    intros H. by rewrite (H EmptyString (String c s) eq_refl) in E.
  - rewrite (findall_cons_none _ _ E), IH. split.
    + intros H [|x a] r; simpl; [by intros <-|]. intros [= -> Hs]. by apply (H a).
    + intros H a r ->. by apply (H (String c a)).
Qed.

(** The scan is leftmost-first: when no match starts inside [a], the first
    string found in [a ++ r] is the match at the start of [r], and the
    scan resumes after it. *)
Lemma findall_leftmost a r m rest :
  (forall a1 a2, a = a1 ++ a2 -> a2 <> EmptyString -> match_at (a2 ++ r) = None) ->
  match_at r = Some (m, rest) ->
  findall (a ++ r) = m :: findall rest.
Proof.
  intros Hnone Hr. induction a as [|c a IH]; simpl.
  - destruct r as [|c r]; [by apply match_at_spec in Hr as (? & Hm & _); destruct m|].
    by apply findall_cons_match.
  - rewrite findall_cons_none.
    + apply IH. intros a1 a2 -> Ha2. by apply (Hnone (String c a1)).
    + by apply (Hnone EmptyString (String c a)).
Qed.

(** The successive matches of a text, as a declarative scan: either the
    pattern matches at no position, or the text is [a ++ m ++ rest] where
    no match starts inside [a], the match at the start of [m ++ rest] is
    [m], and the scan goes on with [rest], after the match. *)
Inductive scan_ok : string -> list string -> Prop :=
  | scan_nil s :
      (forall a r, s = a ++ r -> match_at r = None) -> scan_ok s []
  | scan_cons a m rest ms :
      (forall a1 a2, a = a1 ++ a2 -> a2 <> EmptyString -> match_at (a2 ++ m ++ rest) = None) ->
      match_at (m ++ rest) = Some (m, rest) ->
      scan_ok rest ms ->
      scan_ok (a ++ m ++ rest) (m :: ms).

Lemma scan_ok_skip c s ms :
  match_at (String c s) = None -> scan_ok s ms -> scan_ok (String c s) ms.
Proof.
  intros E Hs. destruct Hs as [s Hn|a m rest ms Hnone Hm Hrest].
  - constructor. intros [|x a] r; simpl; [by intros <-|]. intros [= -> ->]. by apply (Hn a).
  - apply (scan_cons (String c a)); [|done..].
    intros [|x a1] a2; simpl; [by intros <- _|]. intros [= -> ->] Ha2. by apply (Hnone a1).
Qed.

Lemma scan_ok_findall s : scan_ok s (findall s).
Proof.
  induction s as [|c s m rest E IH|c s E IH] using findall_ind.
  - rewrite findall_eq. constructor. intros [|??] r; simpl; [intros <-|]; done.
  - rewrite (findall_cons_match _ _ _ _ E).
    destruct (match_at_spec _ _ _ E) as (Hs & _). rewrite Hs in E |- *.
    apply (scan_cons EmptyString); [|done..]. by intros [|??] ? [=].
  - rewrite (findall_cons_none _ _ E). by apply scan_ok_skip.
Qed.

(** C18: [findall] computes exactly the declarative leftmost,
    non-overlapping scan: [scan_ok s ms] holds if and only if
    [findall s = ms]. *)
Theorem findall_scan_spec s ms : scan_ok s ms <-> findall s = ms.
Proof.
  split.
  - induction 1 as [s Hn|a m rest ms Hnone Hm _ IH].
    + by apply findall_nil_none.
    + rewrite (findall_leftmost a (m ++ rest) m rest Hnone Hm). by f_equal.
  - intros <-. apply scan_ok_findall.
Qed.

(** ** Witnesses *)

Lemma findall_sound_witness :
  "http://example.com" ∈ findall "see http://example.com)." /\
  url_full_match "http://example.com" = true.
Proof.
  assert (H : "http://example.com" ∈ findall "see http://example.com).")
    by (apply list_elem_of_In; vm_compute; left; reflexivity).
  split; [exact H | exact (proj1 (findall_sound _ _ H))].
Defined.

Lemma findall_nil_iff_witness : findall "see http:/x" = [] /\ match_at "http:/x" = None.
Proof.
  assert (H : findall "see http:/x" = []) by (vm_compute; reflexivity).
  split; [exact H|].
  exact (proj1 (findall_nil_iff "see http:/x") H "see " "http:/x" eq_refl).
Defined.

Lemma findall_scan_spec_witness :
  scan_ok "a http://b.c/?u=http://d) http://e" ["http://b.c/?u=http://d"; "http://e"].
Proof. apply (proj2 (findall_scan_spec _ _)). vm_compute. reflexivity. Defined.
