(* ===== verification/LinkExtract.v ===== *)
(** * Link extraction (src/app.py, lines 51-66)

    The loop of [convert_pdf_to_word] that collects the links of a PDF:
    for each page, the [uri] entry of each annotation's [info] dict, then
    each [URL_PATTERN] match of the page text, each stripped of trailing
    [.,;:)]] and appended unless already present.  [extract_links] is the
    loop as written; [link_candidates] lists what the loop looks at in
    order, and the refinement theorem (C2) shows that the loop computes the
    first-occurrence deduplication of that list. *)

From S2P Require Import Prelude PyStr UrlPattern.
Local Open Scope string_scope.

(** A PyMuPDF annotation, as far as the loop reads it: its [info] dict. *)
Record Annot := mkAnnot { annot_info : gmap string string }.

(** A PyMuPDF page: [page.annots()] (the loop writes [page.annots() or []])
    and [page.get_text('text')]. *)
Record Page := mkPage { page_annots : option (list Annot); page_text : string }.

(** [u.rstrip('.,;:)]')] (lines 58 and 63). *)
Definition link_strip_chars : string := ".,;:)]".
Definition strip_link (u : string) : string := py_rstrip link_strip_chars u.

(** Truth value of a Python [str]: [if uri:]. *)
Definition py_str_truthy (s : string) : bool :=
  match s with EmptyString => false | _ => true end.

(** Lines 56-60: one annotation. *)
Definition annot_step (links : list string) (annot : Annot) : list string :=
  match annot_info annot !! "uri" with
  | Some uri => if py_str_truthy uri then append_new links (strip_link uri) else links
  | None => links
  end.

(** Lines 62-65: one regex match of the page text. *)
Definition text_step (links : list string) (m : string) : list string :=
  append_new links (strip_link m).

(** Lines 55-65: one page, annotations first, then the text. *)
Definition page_step (links : list string) (page : Page) : list string :=
  foldl text_step (foldl annot_step links (default [] (page_annots page)))
        (findall (page_text page)).

(** Lines 52-66: [links = []] and the loop over the pages. *)
Definition extract_links (pages : list Page) : list string := foldl page_step [] pages.

(** ** Reference specification *)

(** The link an annotation contributes, if any. *)
Definition annot_link (a : Annot) : option string :=
  match annot_info a !! "uri" with
  | Some uri => if py_str_truthy uri then Some (strip_link uri) else None
  | None => None
  end.

Definition annot_candidates (p : Page) : list string :=
  omap annot_link (default [] (page_annots p)).

Definition text_candidates (p : Page) : list string :=
  map strip_link (findall (page_text p)).

(** Every link the loop considers, in the order it considers them. *)
Definition link_candidates (pages : list Page) : list string :=
  flat_map (fun p => (annot_candidates p ++ text_candidates p)%list) pages.

(** ** Lemmas *)

Lemma foldl_annot_step links annots :
  foldl annot_step links annots = foldl append_new links (omap annot_link annots).
Proof.
  revert links. induction annots as [|a annots IH]; intros links; simpl; [done|].
  rewrite IH. unfold annot_step, annot_link.
  destruct (annot_info a !! "uri") as [uri|]; [|done].
  by destruct (py_str_truthy uri).
Qed.

Lemma foldl_text_step links ms :
  foldl text_step links ms = foldl append_new links (map strip_link ms).
Proof. revert links. induction ms as [|m ms IH]; intros links; simpl; auto. Qed.

Lemma page_step_spec links p :
  page_step links p = foldl append_new links (annot_candidates p ++ text_candidates p)%list.
Proof.
  unfold page_step. by rewrite foldl_text_step, foldl_annot_step, foldl_app.
Qed.

Lemma foldl_page_step links pages :
  foldl page_step links pages = foldl append_new links (link_candidates pages).
Proof.
  revert links. induction pages as [|p pages IH]; intros links; simpl; [done|].
  rewrite IH, page_step_spec, <- foldl_app. done.
Qed.

(** The loop adds the candidates one at a time, unless already present. *)
Lemma extract_links_candidates pages :
  extract_links pages = foldl append_new [] (link_candidates pages).
Proof. apply foldl_page_step. Qed.

(** An annotation's link is a candidate. *)
Lemma annot_link_candidate pages p a u :
  p ∈ pages -> a ∈ default [] (page_annots p) -> annot_link a = Some u ->
  u ∈ link_candidates pages.
Proof.
  intros Hp Ha Hu. apply list_elem_of_In, in_flat_map. exists p.
  split; [by apply list_elem_of_In|]. apply list_elem_of_In, elem_of_app. left.
  apply list_elem_of_omap. by exists a.
Qed.

(** ** Properties *)

(** C2: the extraction loop computes the first-occurrence deduplication of
    the candidate links, taken page by page, annotations before text
    matches, each stripped of trailing [.,;:)]]. *)
Theorem extract_links_dedup pages :
  extract_links pages = dedup (link_candidates pages).
Proof. by rewrite extract_links_candidates, foldl_append_new_nil. Qed.

(** C8: the extracted list has no duplicates. *)
Theorem extract_links_NoDup pages : NoDup (extract_links pages).
Proof. rewrite extract_links_candidates, foldl_append_new_nil. apply NoDup_dedup. Qed.

(** C9: a string is extracted exactly when it is one of the candidate
    links: nothing is lost and nothing is invented. *)
Theorem extract_links_elem pages u :
  u ∈ extract_links pages <-> u ∈ link_candidates pages.
Proof. by rewrite extract_links_candidates, foldl_append_new_nil, elem_of_dedup. Qed.

(** C10: every candidate link occurs exactly once in the extracted list; in
    particular a URL that is both an annotation and visible text of the PDF
    is listed once. *)
Theorem extract_links_count_one pages u :
  u ∈ link_candidates pages ->
  count_occ (decide_rel (=)) (extract_links pages) u = 1.
Proof. intros Hu. rewrite extract_links_candidates, foldl_append_new_nil. by apply dedup_count_one. Qed.

Lemma strip_link_scheme sch b :
  (sch = "http://" \/ sch = "https://") ->
  strip_link (sch ++ b) = sch ++ py_rstrip link_strip_chars b.
Proof.
  intros Hsch. unfold strip_link. rewrite py_rstrip_app.
  destruct (py_rstrip link_strip_chars b); [|done].
  by destruct Hsch as [-> | ->].
Qed.

Lemma str_all_prefix p r t : str_all p (r ++ t) = true -> str_all p r = true.
Proof. rewrite str_all_app. by intros [? _]%andb_true_iff. Qed.

(** C11: a link taken from the page text is [http://] or [https://] followed
    by body characters of the pattern (no white space, no [<>'] nor double
    quote, no [)] or []]), and it does not end with one of [.,;:)]].  The
    body may be empty: the text [http://...] gives the link [http://]. *)
Theorem text_link_shape p u :
  u ∈ text_candidates p ->
  exists sch body, u = sch ++ body /\ (sch = "http://" \/ sch = "https://") /\
    str_all url_body_char body = true /\
    forall r c, u = r ++ String c EmptyString -> str_has c link_strip_chars = false.
Proof.
  unfold text_candidates. intros (m & -> & Hm)%list_elem_of_fmap.
  destruct (findall_elem _ _ Hm) as (a & rest & _ & (_ & Hfull & _)%match_at_spec).
  unfold url_full_match in Hfull.
  destruct (match_scheme m) as [[sch b0]|] eqn:E; [|done].
  apply andb_true_iff in Hfull as [_ Hb0].
  apply match_scheme_spec in E as [-> Hsch].
  destruct (py_rstrip_suffix link_strip_chars b0) as (t & Hb & _).
  exists sch, (py_rstrip link_strip_chars b0). rewrite strip_link_scheme by done.
  split_and!; [done|done| |].
  - rewrite Hb in Hb0. by eapply str_all_prefix.
  - intros r c Hu. apply (py_rstrip_last link_strip_chars (sch ++ b0) r).
    by rewrite <- Hu, <- strip_link_scheme.
Qed.

(** The keys of [Annot.info] in PyMuPDF: it has no [uri] entry. *)
Definition pymupdf_info_keys : list string :=
  ["content"; "name"; "title"; "creationDate"; "modDate"; "subject"; "id"].

(** C17: when every annotation's [info] dict has only the keys PyMuPDF puts
    there, the annotation branch of the loop never adds a link: the result
    is the deduplicated list of the text matches alone. *)
Theorem extract_links_pymupdf_info pages :
  (forall p a k, p ∈ pages -> a ∈ default [] (page_annots p) ->
     is_Some (annot_info a !! k) -> k ∈ pymupdf_info_keys) ->
  extract_links pages = dedup (flat_map text_candidates pages).
Proof.
  intros Hkeys. rewrite extract_links_candidates, foldl_append_new_nil. f_equal.
  unfold link_candidates. induction pages as [|p pages IH]; simpl; [done|].
  rewrite IH by (intros; apply (Hkeys p0 a k); [by right|done..]).
  f_equal. unfold annot_candidates.
  assert (Hnone : forall a, a ∈ default [] (page_annots p) -> annot_link a = None).
  { intros a Ha. unfold annot_link.
    destruct (annot_info a !! "uri") eqn:Hu; [|done].
    assert (Hk : "uri" ∈ pymupdf_info_keys) by (apply (Hkeys p a); [left|done|by rewrite Hu]).
    exfalso. unfold pymupdf_info_keys in Hk. set_solver. }
  induction (default [] (page_annots p)) as [|a annots IHa]; simpl; [done|].
  rewrite Hnone by set_solver. apply IHa. set_solver.
Qed.

(** C22: an annotation whose [uri] is not empty but consists only of
    characters [rstrip] removes (such as [.] or [)]) passes the [if uri:]
    test and contributes the empty string: it is among the extracted
    links, and the document gets an empty paragraph on its link page. *)
Theorem extract_links_empty_uri pages p a uri :
  p ∈ pages -> a ∈ default [] (page_annots p) -> annot_info a !! "uri" = Some uri ->
  uri <> EmptyString -> str_all (fun c => str_has c link_strip_chars) uri = true ->
  EmptyString ∈ extract_links pages.
Proof.
  intros Hp Ha Huri Hne Hall.
  rewrite extract_links_candidates, foldl_append_new_nil, elem_of_dedup.
  apply (annot_link_candidate _ p a); [done..|]. unfold annot_link, strip_link.
  rewrite Huri, py_rstrip_all by done. by destruct uri.
Qed.

(** ** Concrete runs and witnesses *)

Lemma extract_links_count_one_witness :
  let pages := [mkPage (Some [mkAnnot {["uri" := "http://a.org"]}]) "see http://a.org."] in
  "http://a.org" ∈ link_candidates pages /\
  count_occ (decide_rel (=)) (extract_links pages) "http://a.org" = 1.
Proof.
  intros pages.
  assert (H : "http://a.org" ∈ link_candidates pages)
    by (apply list_elem_of_In; vm_compute; left; reflexivity).
  split; [exact H | exact (extract_links_count_one pages _ H)].
Defined.

Lemma text_link_shape_witness :
  "http://" ∈ text_candidates (mkPage None "see http://...") /\
  exists sch body, "http://" = sch ++ body /\ (sch = "http://" \/ sch = "https://") /\
    str_all url_body_char body = true /\
    forall r c, "http://" = r ++ String c EmptyString -> str_has c link_strip_chars = false.
Proof.
  assert (H : "http://" ∈ text_candidates (mkPage None "see http://..."))
    by (apply list_elem_of_In; vm_compute; left; reflexivity).
  split; [exact H | exact (text_link_shape _ _ H)].
Defined.

Lemma extract_links_pymupdf_info_witness :
  extract_links [mkPage (Some [mkAnnot {["content" := "see http://a.org"]}]) "http://b.org"] =
  dedup (flat_map text_candidates
           [mkPage (Some [mkAnnot {["content" := "see http://a.org"]}]) "http://b.org"]).
Proof.
  apply extract_links_pymupdf_info.
  intros p a k Hp Ha [v Hv].
  apply list_elem_of_singleton in Hp as ->. simpl in Ha.
  apply list_elem_of_singleton in Ha as ->. simpl in Hv.
  apply lookup_singleton_Some in Hv as [<- _].
  apply list_elem_of_In. vm_compute. auto.
Defined.

Lemma extract_links_empty_uri_witness :
  EmptyString ∈ extract_links [mkPage (Some [mkAnnot {["uri" := ")."]}]) "no links"].
Proof.
  apply (extract_links_empty_uri _ (mkPage (Some [mkAnnot {["uri" := ")."]}]) "no links")
           (mkAnnot {["uri" := ")."]}) ")."); try (vm_compute; reflexivity); try discriminate;
    apply list_elem_of_In; vm_compute; left; reflexivity.
Defined.
