(* ===== verification/Docx.v ===== *)
(** * The Word document as python-docx edits it (src/app.py, lines 45-49
    and 68-75)

    A document is its body, a list of blocks.  [style_tables] is the loop
    that gives every table of [doc.tables] the ['Table Grid'] style;
    [add_link_list] is the page appended when links were found: a page
    break, a level-2 heading ['Daftar Link'] and one paragraph per link. *)

From S2P Require Import Prelude.
Local Open Scope string_scope.

Inductive Block :=
  | Paragraph (style : option string) (text : string)
  | PageBreak
  | Table (style : option string) (rows : list (list string)).

Record Docx := mkDocx { doc_body : list Block }.

(** [doc.tables]: the tables of the body. *)
Definition doc_tables (d : Docx) : list (option string * list (list string)) :=
  omap (fun b => match b with Table s rows => Some (s, rows) | _ => None end) (doc_body d).

(** [table.style = style] applied to one block. *)
Definition set_table_style (style : string) (b : Block) : Block :=
  match b with
  | Table _ rows => Table (Some style) rows
  | _ => b
  end.

(** Lines 47-48: [for table in doc.tables: table.style = 'Table Grid']. *)
Definition style_tables (d : Docx) : Docx :=
  mkDocx (map (set_table_style "Table Grid") (doc_body d)).

(** [doc.add_page_break()]. *)
Definition add_page_break (d : Docx) : Docx := mkDocx (doc_body d ++ [PageBreak])%list.

(** The style python-docx gives [add_heading(text, level)]. *)
Definition heading_style (level : nat) : string :=
  match level with
  | O => "Title"
  | _ => "Heading " ++ pretty level
  end.

(** [doc.add_heading(text, level=level)]. *)
Definition add_heading (d : Docx) (text : string) (level : nat) : Docx :=
  mkDocx (doc_body d ++ [Paragraph (Some (heading_style level)) text])%list.

(** [doc.add_paragraph(text)]. *)
Definition add_paragraph (d : Docx) (text : string) : Docx :=
  mkDocx (doc_body d ++ [Paragraph None text])%list.

(** Lines 71-74: page break, heading, then [for u in links:
    doc.add_paragraph(u)]. *)
Definition add_link_list (links : list string) (d : Docx) : Docx :=
  foldl add_paragraph (add_heading (add_page_break d) "Daftar Link" 2) links.

(** The blocks the link page adds. *)
Definition link_page (links : list string) : list Block :=
  PageBreak :: Paragraph (Some "Heading 2") "Daftar Link" :: map (Paragraph None) links.

(** ** Lemmas *)

Lemma foldl_add_paragraph d links :
  doc_body (foldl add_paragraph d links) = (doc_body d ++ map (Paragraph None) links)%list.
Proof.
  revert d. induction links as [|u links IH]; intros d; simpl.
  - by rewrite app_nil_r.
  - rewrite IH. simpl. by rewrite <- app_assoc.
Qed.

Lemma add_link_list_body links d :
  doc_body (add_link_list links d) = (doc_body d ++ link_page links)%list.
Proof.
  unfold add_link_list. rewrite foldl_add_paragraph. simpl.
  by rewrite <- !app_assoc.
Qed.

Lemma add_link_list_eq links d :
  add_link_list links d = mkDocx (doc_body d ++ link_page links)%list.
Proof. rewrite <- add_link_list_body. by destruct (add_link_list links d). Qed.

Lemma style_tables_idem d : style_tables (style_tables d) = style_tables d.
Proof.
  destruct d as [body]. unfold style_tables. simpl. f_equal.
  rewrite map_map. apply map_ext. by intros [].
Qed.

Lemma doc_tables_style_tables d :
  doc_tables (style_tables d) = map (fun t => (Some "Table Grid", t.2)) (doc_tables d).
Proof.
  destruct d as [body]. unfold doc_tables, style_tables. simpl.
  induction body as [|[] body IH]; [done|..]; cbn [map omap list_omap]; rewrite ?IH; try done.
Qed.

Lemma doc_tables_add_link_list links d :
  doc_tables (add_link_list links d) = doc_tables d.
Proof.
  rewrite add_link_list_eq. destruct d as [body]. unfold doc_tables. simpl.
  rewrite omap_app. unfold link_page.
  induction links as [|u links IH]; simpl in *; [by rewrite app_nil_r|done].
Qed.

#[export] Hint Rewrite add_link_list_body style_tables_idem doc_tables_style_tables : pyrw.
