(* ===== verification/PyFs.v ===== *)
(** * Files, temporary directories and exceptions

    The state the program changes: the files it reads and writes
    ([open(...).read()], [open(..., 'wb').write], [Document(path)],
    [doc.save(path)], [shutil.copy], [zipfile.ZipFile(...).write]) and the
    directories [tempfile.mkdtemp()] creates.  [mkdtemp] draws a fresh name
    from a counter: CPython picks a random unused name, and all the proofs
    use of it is that it is new.  The exceptions the program can raise are
    the constructors of [PyExc]. *)

From S2P Require Import Prelude PyStr Docx.
Local Open Scope string_scope.
Local Open Scope py_scope.

(** File contents: the bytes of an uploaded file, a Word document as
    python-docx reads and writes it, or a zip archive (its entries in the
    order written). *)
Inductive Blob :=
  | BRaw (bytes : string)
  | BDocx (d : Docx)
  | BZip (entries : list (string * Blob)).

Record FS := mkFS {
  fs_files : gmap string Blob;
  fs_dirs : gset string;
  fs_tmp : nat
}.

Inductive PyExc :=
  | ValueError (msg : string)
  | TypeError (msg : string)
  | IndexError (msg : string)
  | FileNotFoundError (path : string)
  | SameFileError (src dst : string)
  | ConversionError         (* pdf2docx [Converter.convert] failed *)
  | PdfOpenError            (* [fitz.open] could not parse the file *)
  | DocxLoadError (path : string). (* [Document(path)] on a non-docx file *)

Abbreviation PyIO := (PyM FS PyExc).

(** The name of the [n]-th temporary directory. *)
Definition tmp_dir (n : nat) : string := "/tmp/tmp" ++ pretty n.

(** [tempfile.mkdtemp()]. *)
Definition mkdtemp : PyIO string :=
  fun st => let d := tmp_dir (fs_tmp st) in
            (inr d, mkFS (fs_files st) ({[d]} ∪ fs_dirs st) (S (fs_tmp st))).

(** [open(p, 'rb').read()]. *)
Definition read_file (p : string) : PyIO Blob :=
  fun st => match fs_files st !! p with
            | Some b => (inr b, st)
            | None => (inl (FileNotFoundError p), st)
            end.

(** [open(p, 'wb').write(b)]. *)
Definition write_file (p : string) (b : Blob) : PyIO unit :=
  fun st => (inr tt, mkFS (<[p := b]> (fs_files st)) (fs_dirs st) (fs_tmp st)).

(** [Document(p)]. *)
Definition load_docx (p : string) : PyIO Docx :=
  let* b := read_file p in
  match b with
  | BDocx d => py_ret d
  | _ => py_raise (DocxLoadError p)
  end.

(** [doc.save(p)]. *)
Definition save_docx (p : string) (d : Docx) : PyIO unit := write_file p (BDocx d).

(** [shutil.copy(src, dst)]: [copyfile] refuses to copy a file onto
    itself. *)
Definition shutil_copy (src dst : string) : PyIO unit :=
  if bool_decide (src = dst) then py_raise (SameFileError src dst)
  else let* b := read_file src in write_file dst b.

(** ** The file system only grows *)

(** Files are never removed and directories never deleted. *)
Definition fs_le (s1 s2 : FS) : Prop :=
  dom (fs_files s1) ⊆ dom (fs_files s2) /\ fs_dirs s1 ⊆ fs_dirs s2 /\ fs_tmp s1 <= fs_tmp s2.

#[export] Instance fs_le_preorder : PreOrder fs_le.
Proof.
  split.
  - intros s. unfold fs_le. split_and!; [set_solver..|lia].
  - intros s1 s2 s3 (?&?&?) (?&?&?). unfold fs_le. split_and!; [set_solver..|lia].
Qed.

Lemma mkdtemp_mono : py_mono fs_le mkdtemp.
Proof. intros st. unfold fs_le. simpl. split_and!; [set_solver..|lia]. Qed.

Lemma read_file_mono p : py_mono fs_le (read_file p).
Proof. intros st. unfold read_file. destruct (fs_files st !! p); simpl; reflexivity. Qed.

Lemma write_file_mono p b : py_mono fs_le (write_file p b).
Proof.
  intros st. unfold fs_le. simpl. rewrite dom_insert_L. split_and!; [set_solver..|lia].
Qed.

Lemma load_docx_mono p : py_mono fs_le (load_docx p).
Proof. unfold load_docx. py_mono_bind_tac; [apply read_file_mono|]. intros []; eauto with pydb. Qed.

Lemma save_docx_mono p d : py_mono fs_le (save_docx p d).
Proof. apply write_file_mono. Qed.

Lemma shutil_copy_mono src dst : py_mono fs_le (shutil_copy src dst).
Proof.
  unfold shutil_copy. case_bool_decide; [eauto with pydb|].
  py_mono_bind_tac; [apply read_file_mono|intros; apply write_file_mono].
Qed.

#[export] Hint Resolve mkdtemp_mono read_file_mono write_file_mono load_docx_mono
  save_docx_mono shutil_copy_mono : pydb.

(** ** Names of temporary directories *)

Definition is_digit (c : ascii) : bool := bool_decide (c ∈ ["0";"1";"2";"3";"4";"5";"6";"7";"8";"9"]%char).

Lemma pretty_N_go_digits x s :
  str_all is_digit (pretty_N_go x s) = str_all is_digit s.
Proof.
  revert s. induction (N.lt_wf_0 x) as [x _ IH]; intros s.
  destruct (decide (x = 0%N)) as [->|Hx]; [by rewrite pretty_N_go_0|].
  rewrite pretty_N_go_step by lia. rewrite IH by (apply N.div_lt; lia).
  simpl. replace (is_digit (pretty_N_char (x `mod` 10))) with true; [done|].
  unfold pretty_N_char. repeat case_match; done.
Qed.

Lemma pretty_nat_digits (n : nat) : str_all is_digit (pretty n) = true.
Proof.
  unfold pretty, pretty_nat, pretty, pretty_N.
  case_decide; [done|]. by rewrite pretty_N_go_digits.
Qed.

Lemma str_all_no_slash s : str_all is_digit s = true -> str_has slash s = false.
Proof.
  induction s as [|c s IH]; simpl; [done|].
  intros [Hc Hs]%andb_true_iff. rewrite IH by done.
  rewrite bool_decide_false; [done|]. intros ->. done.
Qed.

Lemma str_snoc s : s = EmptyString \/ exists a c, s = a ++ String c EmptyString.
Proof.
  induction s as [|x s [-> | (a & c & ->)]]; [by left|right..].
  - by exists EmptyString, x.
  - by exists (String x a), c.
Qed.

(** The name of a temporary directory does not end with a slash. *)
Lemma tmp_dir_snoc n : exists a x, tmp_dir n = a ++ String x EmptyString /\ x <> slash.
Proof.
  unfold tmp_dir. pose proof (pretty_nat_digits n) as Hd.
  destruct (str_snoc (pretty n)) as [-> | (a & c & Ha)].
  - by exists "/tmp/tm", "p"%char.
  - exists ("/tmp/tmp" ++ a), c. rewrite Ha, str_app_assoc. split; [done|].
    intros ->. rewrite Ha in Hd. apply str_all_no_slash in Hd.
    by rewrite str_has_mid in Hd.
Qed.

(** [os.path.join(tmp_dir n, name)] for a relative [name]. *)
Lemma path_join_tmp n c name :
  c <> slash -> path_join (tmp_dir n) (String c name) = tmp_dir n ++ String slash (String c name).
Proof.
  intros Hc. destruct (tmp_dir_snoc n) as (a & x & Ha & Hx). rewrite Ha.
  rewrite path_join_plain by done. by rewrite <- str_app_assoc.
Qed.

Lemma str_app_inj_l a b1 b2 : a ++ b1 = a ++ b2 -> b1 = b2.
Proof. induction a as [|x a IH]; simpl; [done|]. intros [=]. auto. Qed.

Lemma str_app_inj_r a1 a2 b : a1 ++ b = a2 ++ b -> a1 = a2.
Proof.
  revert a2. induction a1 as [|x a1 IH]; intros [|y a2]; simpl; try done.
  - intros Hb. apply (f_equal String.length) in Hb.
    simpl in Hb. rewrite str_length_app in Hb. lia.
  - intros Hb. apply (f_equal String.length) in Hb.
    simpl in Hb. rewrite str_length_app in Hb. lia.
  - intros [= -> H]. f_equal. auto.
Qed.

(** [os.path.join(workdir, f"{base_name}.docx")] (line 78). *)
Lemma path_join_base n p :
  path_join (tmp_dir n) (base_name_of p ++ ".docx") = tmp_dir n ++ "/" ++ base_name_of p ++ ".docx".
Proof.
  pose proof (base_name_of_no_slash p) as Hb.
  destruct (base_name_of p) as [|c b] eqn:E; cbn [String.append].
  - by rewrite path_join_tmp.
  - rewrite path_join_tmp; [done|]. intros ->. revert Hb. simpl.
    rewrite ?bool_decide_true by done. done.
Qed.

(** ** Running the primitives *)

Lemma read_file_ok p st b : fs_files st !! p = Some b -> read_file p st = (inr b, st).
Proof. intros H. unfold read_file. by rewrite H. Qed.

Lemma load_docx_ok p st d : fs_files st !! p = Some (BDocx d) -> load_docx p st = (inr d, st).
Proof. intros H. unfold load_docx. by rewrite (py_bind_inr _ _ _ _ _ (read_file_ok _ _ _ H)). Qed.

Lemma shutil_copy_ok src dst st b :
  src <> dst -> fs_files st !! src = Some b ->
  shutil_copy src dst st = (inr tt, mkFS (<[dst := b]> (fs_files st)) (fs_dirs st) (fs_tmp st)).
Proof.
  intros Hne H. unfold shutil_copy. rewrite bool_decide_false by done.
  by rewrite (py_bind_inr _ _ _ _ _ (read_file_ok _ _ _ H)).
Qed.

Lemma shutil_copy_same p st : shutil_copy p p st = (inl (SameFileError p p), st).
Proof. unfold shutil_copy. by rewrite bool_decide_true. Qed.

(** One step of a run in which the state is an explicit [mkFS] record. *)
Ltac fs_step tac := py_bind_step tac; cbn [fs_files fs_dirs fs_tmp].
Ltac fs_step_eq := fs_step ltac:(exact eq_refl).
Ltac fs_step_read := fs_step ltac:(apply read_file_ok; simplify_map_eq; done).
Ltac fs_step_load := fs_step ltac:(apply load_docx_ok; simplify_map_eq; done).
Ltac fs_step_opt := fs_step ltac:(apply py_of_option_ok; done).

(** The directory [mkdtemp] creates survives whatever runs after it. *)
Lemma mkdtemp_bind_dirs {A} (k : string -> PyIO A) st :
  (forall a, py_mono fs_le (k a)) -> tmp_dir (fs_tmp st) ∈ fs_dirs (snd (py_bind mkdtemp k st)).
Proof.
  intros Hk. unfold py_bind. simpl.
  destruct (Hk (tmp_dir (fs_tmp st)) (mkFS (fs_files st) ({[tmp_dir (fs_tmp st)]} ∪ fs_dirs st)
                                          (S (fs_tmp st)))) as (_ & Hd & _).
  simpl in Hd. set_solver.
Qed.

Lemma str_slash_split a b x y :
  str_has slash a = false -> str_has slash b = false ->
  a ++ String slash x = b ++ String slash y -> a = b.
Proof.
  revert b. induction a as [|c a IH]; intros [|c' b] Ha Hb Heq; simpl in Heq.
  - done.
  - injection Heq as Hc _. revert Hb. rewrite <- Hc. simpl.
    rewrite ?bool_decide_true by done. done.
  - injection Heq as Hc _. revert Ha. rewrite Hc. simpl.
    rewrite ?bool_decide_true by done. done.
  - injection Heq as -> Heq. simpl in Ha, Hb. apply orb_false_iff in Ha as [_ Ha].
    apply orb_false_iff in Hb as [_ Hb]. f_equal. by apply IH.
Qed.

(** Files in different temporary directories have different paths. *)
Lemma tmp_dir_child_ne k m x y :
  k <> m -> tmp_dir k ++ String slash x <> tmp_dir m ++ String slash y.
Proof.
  intros Hkm Heq. unfold tmp_dir in Heq. rewrite <- !str_app_assoc in Heq.
  apply str_app_inj_l in Heq. apply str_slash_split in Heq;
    [|apply str_all_no_slash, pretty_nat_digits..].
  apply Hkm. by apply (inj pretty).
Qed.
