(* ===== verification/Convert.v ===== *)
(** * Converting one PDF (src/app.py, lines 11-84)

    [convert_pdf_to_word] reads the upload, writes it to [input.pdf] in a
    fresh temporary directory, converts it with pdf2docx into
    [output.docx], gives every table the grid style, collects the links
    with PyMuPDF, appends the link page when there are links, and copies
    [output.docx] to [<base name>.docx].  The two PDF libraries are the
    interface [PdfBackend]: the theorems hold for every implementation of
    it, and the witnesses use [table_backend], which reads a PDF from a
    table of known files. *)

From S2P Require Import Prelude PyStr UrlPattern LinkExtract Docx PyFs.
Local Open Scope string_scope.
Local Open Scope py_scope.

(** What the program asks of pdf2docx and PyMuPDF. *)
Class PdfBackend := {
  (** [Converter(pdf_path).convert(docx, start=0, end=None)]: the Word
      document of the PDF, or [None] when the converter raises. *)
  pdf2docx_convert : Blob -> option Docx;
  (** [fitz.open(pdf_path)] and its pages, or [None] when it raises. *)
  fitz_pages : Blob -> option (list Page)
}.

(** The shapes of [pdf_file] the function distinguishes (lines 19-31): an
    object with [read] (and maybe a [name] attribute), a dict, a path
    string, anything else. *)
Inductive PdfInput :=
  | InStream (data : Blob) (name : option string)
  | InDict (d : gmap string string)
  | InStr (path : string)
  | InOther.

Definition unsupported : PyExc := ValueError "Unsupported input type".

(** Lines 19-31: the PDF's bytes and its original name. *)
Definition read_input (pdf_file : PdfInput) : PyIO (Blob * string) :=
  match pdf_file with
  | InStream data name => py_ret (data, default "output.pdf" name)
  | InDict d =>
      match d !! "name" with
      | Some p => let* data := read_file p in py_ret (data, p)
      | None => py_raise unsupported
      end
  | InStr p => let* data := read_file p in py_ret (data, p)
  | InOther => py_raise unsupported
  end.

Section convert.
Context `{PdfBackend}.

(** Lines 11-84. *)
Definition convert_pdf_to_word (pdf_file : PdfInput) : PyIO string :=
  let* workdir := mkdtemp in
  let* input := read_input pdf_file in
  let '(data, orig_name) := input in
  let base_name := base_name_of orig_name in
  let pdf_path := path_join workdir "input.pdf" in
  write_file pdf_path data ;;;
  let temp_docx := path_join workdir "output.docx" in
  let* pdf_data := read_file pdf_path in
  let* converted := py_of_option ConversionError (pdf2docx_convert pdf_data) in
  write_file temp_docx (BDocx converted) ;;;
  let* doc := load_docx temp_docx in
  save_docx temp_docx (style_tables doc) ;;;
  let* pdf_data' := read_file pdf_path in
  let* pages := py_of_option PdfOpenError (fitz_pages pdf_data') in
  let links := extract_links pages in
  match links with
  | [] => py_ret tt
  | _ => let* doc' := load_docx temp_docx in
         save_docx temp_docx (add_link_list links doc')
  end ;;;
  let final_path := path_join workdir (base_name ++ ".docx") in
  shutil_copy temp_docx final_path ;;;
  py_ret final_path.
End convert.

(** ** Specification of the result *)

(** The data and name [read_input] returns, without effects. *)
Definition input_of (files : gmap string Blob) (pdf_file : PdfInput) : PyExc + (Blob * string) :=
  let from_path p := match files !! p with
                     | Some b => inr (b, p)
                     | None => inl (FileNotFoundError p)
                     end in
  match pdf_file with
  | InStream data name => inr (data, default "output.pdf" name)
  | InDict d => match d !! "name" with Some p => from_path p | None => inl unsupported end
  | InStr p => from_path p
  | InOther => inl unsupported
  end.

(** The original name [read_input] gives an input of a supported shape
    (lines 21-29); it does not depend on the file system. *)
Definition input_name (pdf_file : PdfInput) : option string :=
  match pdf_file with
  | InStream _ name => Some (default "output.pdf" name)
  | InDict d => d !! "name"
  | InStr p => Some p
  | InOther => None
  end.

(** The document the conversion leaves: the converted document with its
    tables styled, and the link page when there are links. *)
Definition final_doc (d : Docx) (pages : list Page) : Docx :=
  match extract_links pages with
  | [] => style_tables d
  | links => add_link_list links (style_tables d)
  end.

(** C25: the tables of the final document are those pdf2docx produced, in
    order and with their cells, each with the ['Table Grid'] style; the
    link page adds no table. *)
Theorem final_doc_tables d pages :
  doc_tables (final_doc d pages) = map (fun t => (Some "Table Grid", t.2)) (doc_tables d).
Proof.
  unfold final_doc. destruct (extract_links pages); [|rewrite doc_tables_add_link_list];
    apply doc_tables_style_tables.
Qed.

(** The paths the conversion uses in its directory. *)
Definition workdir_of (st : FS) : string := tmp_dir (fs_tmp st).
Definition final_path_of (st : FS) (orig_name : string) : string :=
  workdir_of st ++ "/" ++ base_name_of orig_name ++ ".docx".
Definition pdf_path_of (st : FS) : string := workdir_of st ++ "/input.pdf".
Definition temp_path_of (st : FS) : string := workdir_of st ++ "/output.docx".

(** The state just before [shutil.copy] (line 79): the work directory
    exists, [input.pdf] holds the upload and [output.docx] the final
    document. *)
Definition converted_state (st : FS) (data : Blob) (d : Docx) (pages : list Page) : FS :=
  mkFS (<[temp_path_of st := BDocx (final_doc d pages)]> (<[pdf_path_of st := data]> (fs_files st)))
       ({[workdir_of st]} ∪ fs_dirs st) (S (fs_tmp st)).

(** ** Lemmas *)

Lemma read_input_spec x st : read_input x st = (input_of (fs_files st) x, st).
Proof.
  destruct x as [data name|d|p|]; simpl; try done.
  - destruct (d !! "name") as [p|]; [|done]. unfold py_bind, read_file.
    by destruct (fs_files st !! p).
  - unfold py_bind, read_file. by destruct (fs_files st !! p).
Qed.

Lemma input_of_name files x data name :
  input_of files x = inr (data, name) -> input_name x = Some name.
Proof.
  destruct x as [? ?|d|p|]; simpl; [by intros [= _ <-]| |  |done].
  - destruct (d !! "name"); [|done]. by destruct (files !! _); [intros [= _ <-]|].
  - by destruct (files !! p); [intros [= _ <-]|].
Qed.

Lemma read_input_mono x : py_mono fs_le (read_input x).
Proof. intros st. rewrite read_input_spec. simpl. reflexivity. Qed.

#[export] Hint Resolve read_input_mono : pydb.

Lemma pdf_temp_ne st : pdf_path_of st <> temp_path_of st.
Proof. by intros ?%str_app_inj_l. Qed.

Lemma temp_final_ne st name :
  base_name_of name <> "output" -> temp_path_of st <> final_path_of st name.
Proof.
  intros Hbase Heq%str_app_inj_l. injection Heq as Heq. apply Hbase.
  by apply (str_app_inj_r _ _ ".docx").
Qed.

Lemma temp_final_eq st name :
  base_name_of name = "output" -> temp_path_of st = final_path_of st name.
Proof. unfold temp_path_of, final_path_of. by intros ->. Qed.

(** The steps of [convert_pdf_to_word] up to reading [input.pdf] back,
    for an input that reads as [Hin] says. *)
Ltac conv_read st Hin :=
  unfold convert_pdf_to_word; fs_step_eq;
  fs_step ltac:(rewrite read_input_spec; simpl; rewrite Hin; exact eq_refl);
  rewrite !path_join_tmp by done;
  let Hne := fresh "Hne" in
  pose proof (pdf_temp_ne st) as Hne; unfold pdf_path_of, temp_path_of, workdir_of in *;
  fs_step_eq; fs_step_read.

Section convert_props.
Context `{PdfBackend}.

(** The run of [convert_pdf_to_word] up to [shutil.copy] when reading,
    converting and opening the PDF succeed. *)
Lemma convert_pdf_to_word_run x st data name d pages :
  input_of (fs_files st) x = inr (data, name) ->
  pdf2docx_convert data = Some d -> fitz_pages data = Some pages ->
  convert_pdf_to_word x st =
    (shutil_copy (temp_path_of st) (final_path_of st name) ;;;
     py_ret (final_path_of st name)) (converted_state st data d pages).
Proof.
  intros Hin Hconv Hpages. unfold converted_state, final_doc.
  conv_read st Hin. rewrite path_join_base by done. fs_step_opt. fs_step_eq. fs_step_load. fs_step_eq.
  fs_step_read. fs_step_opt.
  destruct (extract_links pages) as [|l ls] eqn:El.
  - fs_step_eq. by rewrite insert_insert_eq.
  - fs_step ltac:(erewrite py_bind_inr; [|apply load_docx_ok; simplify_map_eq; done];
                  exact eq_refl).
    by rewrite !insert_insert_eq.
Qed.

(** C1: with a readable upload that both libraries accept, and a base name
    other than [output], the conversion returns [<workdir>/<base>.docx]
    and that file holds the converted document with every table styled
    ['Table Grid'], followed by the link page (page break, heading
    ['Daftar Link'], one paragraph per link in order) exactly when links
    were found. *)
Theorem convert_pdf_to_word_ok x st data name d pages :
  input_of (fs_files st) x = inr (data, name) ->
  pdf2docx_convert data = Some d -> fitz_pages data = Some pages ->
  base_name_of name <> "output" ->
  exists st', convert_pdf_to_word x st = (inr (final_path_of st name), st') /\
    fs_files st' !! final_path_of st name =
      Some (BDocx (mkDocx (doc_body (style_tables d) ++
                           match extract_links pages with
                           | [] => []
                           | links => link_page links
                           end)%list)).
Proof.
  intros Hin Hconv Hpages Hbase. rewrite (convert_pdf_to_word_run _ _ _ _ _ _ Hin Hconv Hpages).
  py_bind_step ltac:(apply shutil_copy_ok; [by apply temp_final_ne|]; simpl; by simplify_map_eq).
  eexists. split; [done|]. simpl. rewrite lookup_insert_eq. f_equal. f_equal.
  unfold final_doc. destruct (extract_links pages); [by rewrite app_nil_r|].
  by rewrite add_link_list_eq.
Qed.

(** C3: an upload whose base name is [output] (a stream with no [name]
    attribute gets the default name [output.pdf]) makes the final copy
    target [output.docx] itself, and [shutil.copy] raises
    [SameFileError]: the conversion fails after all the work is done. *)
Theorem convert_pdf_to_word_output_name x st data name d pages :
  input_of (fs_files st) x = inr (data, name) ->
  pdf2docx_convert data = Some d -> fitz_pages data = Some pages ->
  base_name_of name = "output" ->
  fst (convert_pdf_to_word x st) = inl (SameFileError (temp_path_of st) (temp_path_of st)).
Proof.
  intros Hin Hconv Hpages Hbase. rewrite (convert_pdf_to_word_run _ _ _ _ _ _ Hin Hconv Hpages).
  rewrite <- (temp_final_eq st name Hbase). unfold py_bind.
  by rewrite shutil_copy_same.
Qed.

(** C12: an input of an unsupported shape (neither a stream, a dict with a
    [name] key, nor a string) raises [ValueError], and a path that does
    not exist raises [FileNotFoundError]; the temporary directory has
    already been created. *)
Theorem convert_pdf_to_word_input_error x st e :
  input_of (fs_files st) x = inl e ->
  convert_pdf_to_word x st =
    (inl e, mkFS (fs_files st) ({[workdir_of st]} ∪ fs_dirs st) (S (fs_tmp st))).
Proof.
  intros Hin. unfold convert_pdf_to_word. fs_step_eq.
  unfold py_bind at 1. rewrite read_input_spec. simpl. by rewrite Hin.
Qed.

(** C13: when pdf2docx fails on the uploaded bytes the conversion raises
    its error, and when PyMuPDF cannot open them it raises its error:
    failures of the libraries propagate uncaught. *)
Theorem convert_pdf_to_word_library_error x st data name :
  input_of (fs_files st) x = inr (data, name) ->
  (pdf2docx_convert data = None -> fst (convert_pdf_to_word x st) = inl ConversionError) /\
  (forall d, pdf2docx_convert data = Some d -> fitz_pages data = None ->
     fst (convert_pdf_to_word x st) = inl PdfOpenError).
Proof.
  intros Hin. conv_read st Hin. split.
  - intros Hconv. unfold py_bind at 1. by rewrite Hconv.
  - intros d Hconv Hpages. fs_step_opt. fs_step_eq. fs_step_load. fs_step_eq.
    fs_step_read. unfold py_bind at 1. by rewrite Hpages.
Qed.

Lemma convert_pdf_to_word_mono x : py_mono fs_le (convert_pdf_to_word x).
Proof. unfold convert_pdf_to_word. py_mono_auto. Qed.

(** C16: whatever the outcome, success or exception, the temporary
    directory of the call is still there afterwards and no file is
    removed: nothing is cleaned up. *)
Theorem convert_pdf_to_word_leaves_workdir x st :
  workdir_of st ∈ fs_dirs (snd (convert_pdf_to_word x st)) /\
  fs_le st (snd (convert_pdf_to_word x st)).
Proof.
  split; [|apply convert_pdf_to_word_mono].
  unfold convert_pdf_to_word. apply mkdtemp_bind_dirs. py_mono_auto.
Qed.

(** A conversion succeeds only when the input reads and both libraries
    accept it. *)
Lemma convert_pdf_to_word_success x st p st' :
  convert_pdf_to_word x st = (inr p, st') ->
  exists data name d pages, input_of (fs_files st) x = inr (data, name) /\
    pdf2docx_convert data = Some d /\ fitz_pages data = Some pages.
Proof.
  destruct (input_of (fs_files st) x) as [e|[data name]] eqn:Hin.
  { unfold convert_pdf_to_word. fs_step_eq. unfold py_bind at 1.
    rewrite read_input_spec. simpl. rewrite Hin. by intros [=]. }
  conv_read st Hin.
  destruct (pdf2docx_convert data) as [d|] eqn:Hconv;
    [|unfold py_bind at 1; simpl; by intros [=]].
  fs_step_opt. fs_step_eq. fs_step_load. fs_step_eq. fs_step_read.
  destruct (fitz_pages data) as [pages|] eqn:Hpages;
    [|unfold py_bind at 1; simpl; by intros [=]].
  intros _. by exists data, name, d, pages.
Qed.

(** A successful conversion returns [<its workdir>/<base>.docx], a file
    that exists afterwards, and uses exactly one temporary directory. *)
Lemma convert_pdf_to_word_inv x st p st' :
  convert_pdf_to_word x st = (inr p, st') ->
  (exists name, input_name x = Some name /\ p = final_path_of st name) /\
  is_Some (fs_files st' !! p) /\
  fs_tmp st' = S (fs_tmp st) /\ fs_le st st'.
Proof.
  intros Hrun. pose proof (convert_pdf_to_word_mono x st) as Hle. rewrite Hrun in Hle.
  destruct (convert_pdf_to_word_success _ _ _ _ Hrun) as (data & name & d & pages & Hin & Hconv & Hpages).
  rewrite (convert_pdf_to_word_run _ _ _ _ _ _ Hin Hconv Hpages) in Hrun.
  destruct (decide (base_name_of name = "output")) as [Hb|Hb].
  - rewrite <- (temp_final_eq st name Hb) in Hrun. unfold py_bind in Hrun.
    by rewrite shutil_copy_same in Hrun.
  - unfold py_bind in Hrun.
    rewrite (shutil_copy_ok _ _ _ (BDocx (final_doc d pages))) in Hrun;
      [|by apply temp_final_ne|unfold converted_state; simpl; by simplify_map_eq].
    injection Hrun as <- <-. split_and!; [|  |done|done].
    + exists name. split; [by eapply input_of_name|done].
    + simpl. by rewrite lookup_insert_eq.
Qed.
End convert_props.

#[export] Hint Resolve convert_pdf_to_word_mono : pydb.

(** ** A backend for concrete runs

    [table_backend tbl] knows the PDFs listed in [tbl] by their bytes:
    PyMuPDF returns their pages, and pdf2docx a document with, for each
    page, a paragraph of its text and an unstyled table.  Other bytes make
    both libraries raise. *)
Definition table_pages (tbl : list (string * list Page)) (b : Blob) : option (list Page) :=
  match b with
  | BRaw bytes => (list_to_map tbl : gmap string (list Page)) !! bytes
  | _ => None
  end.

Definition pages_docx (pages : list Page) : Docx :=
  mkDocx (flat_map (fun p => [Paragraph None (page_text p); Table None [[page_text p]]]) pages).

Definition table_backend (tbl : list (string * list Page)) : PdfBackend := {|
  pdf2docx_convert b := pages_docx <$> table_pages tbl b;
  fitz_pages b := table_pages tbl b
|}.

Definition demo_pdfs : list (string * list Page) :=
  [("%PDF report", [mkPage None "see http://example.com)."]);
   ("%PDF a", [mkPage None "first page"; mkPage None "http://a.org"]);
   ("%PDF b", [mkPage (Some [mkAnnot {["content" := "note"]}]) "no links"])].

Definition demo_backend : PdfBackend := table_backend demo_pdfs.

Definition demo_fs : FS :=
  mkFS {["/up/report.pdf" := BRaw "%PDF report"; "/up/a.pdf" := BRaw "%PDF a";
         "/up/b.pdf" := BRaw "%PDF b"; "/up/output.pdf" := BRaw "%PDF a";
         "/up/broken.pdf" := BRaw "not a pdf"; "/other/a.pdf" := BRaw "%PDF b"]} ∅ 0.

Lemma convert_pdf_to_word_ok_witness :
  exists st', @convert_pdf_to_word demo_backend (InStr "/up/report.pdf") demo_fs =
                (inr (final_path_of demo_fs "/up/report.pdf"), st') /\
    fs_files st' !! final_path_of demo_fs "/up/report.pdf" =
      Some (BDocx (mkDocx (doc_body (style_tables (pages_docx [mkPage None "see http://example.com)."])) ++
                           match extract_links [mkPage None "see http://example.com)."] with
                           | [] => []
                           | links => link_page links
                           end)%list)).
Proof.
  apply (@convert_pdf_to_word_ok demo_backend _ _ (BRaw "%PDF report")).
  - vm_compute. reflexivity.
  - vm_compute. reflexivity.
  - vm_compute. reflexivity.
  - vm_compute. discriminate.
Defined.

Lemma convert_pdf_to_word_output_name_witness :
  fst (@convert_pdf_to_word demo_backend (InStr "/up/output.pdf") demo_fs) =
  inl (SameFileError (temp_path_of demo_fs) (temp_path_of demo_fs)).
Proof.
  apply (@convert_pdf_to_word_output_name demo_backend _ _ (BRaw "%PDF a") "/up/output.pdf"
           (pages_docx [mkPage None "first page"; mkPage None "http://a.org"])
           [mkPage None "first page"; mkPage None "http://a.org"]);
    vm_compute; reflexivity.
Defined.

Lemma convert_pdf_to_word_input_error_witness :
  @convert_pdf_to_word demo_backend InOther demo_fs =
    (inl unsupported, mkFS (fs_files demo_fs) ({[workdir_of demo_fs]} ∪ fs_dirs demo_fs)
                           (S (fs_tmp demo_fs))).
Proof. apply convert_pdf_to_word_input_error. vm_compute. reflexivity. Defined.

Lemma convert_pdf_to_word_library_error_witness :
  fst (@convert_pdf_to_word demo_backend (InStr "/up/broken.pdf") demo_fs) = inl ConversionError.
Proof.
  apply (proj1 (@convert_pdf_to_word_library_error demo_backend (InStr "/up/broken.pdf") demo_fs (BRaw "not a pdf")
                  "/up/broken.pdf" ltac:(vm_compute; reflexivity))).
  vm_compute. reflexivity.
Defined.
