(* ===== verification/Batch.v ===== *)
(** * Converting a batch (src/app.py, lines 86-102)

    [convert_and_enable] converts every upload in order; with more than one
    output it writes them into [converted_docs.zip] in a fresh temporary
    directory, each entry named by the base name of its file, and returns
    the update [gr.update(value=path, interactive=True)] for the download
    button.  The first conversion that raises aborts the batch. *)

From S2P Require Import Prelude PyStr LinkExtract Docx PyFs Convert.
Local Open Scope string_scope.
Local Open Scope py_scope.

(** [gr.update(value=..., interactive=...)] for the download button. *)
Record DownloadUpdate := mkUpdate { upd_value : option string; upd_interactive : bool }.

(** [zf.write(p, arcname=os.path.basename(p))] (line 99): the archive,
    kept in memory by the [ZipFile] object and written to [zip_path]. *)
Definition zip_write (zip_path : string) (entries : list (string * Blob)) (p : string)
    : PyIO (list (string * Blob)) :=
  let* b := read_file p in
  let entries' := (entries ++ [(basename p, b)])%list in
  write_file zip_path (BZip entries') ;;;
  py_ret entries'.

Section batch.
Context `{PdfBackend}.

(** Lines 86-102. [pdf_files] is [None] when the upload field is empty. *)
Definition convert_and_enable (pdf_files : option (list PdfInput)) : PyIO DownloadUpdate :=
  match pdf_files with
  | None => py_raise (TypeError "'NoneType' object is not iterable")
  | Some files =>
      let* out_paths := py_mapM convert_pdf_to_word files in
      if bool_decide (1 < length out_paths) then
        let* zip_dir := mkdtemp in
        let zip_path := path_join zip_dir "converted_docs.zip" in
        write_file zip_path (BZip []) ;;;
        let* _ := py_foldM (zip_write zip_path) [] out_paths in
        py_ret (mkUpdate (Some zip_path) true)
      else
        match out_paths with
        | p :: _ => py_ret (mkUpdate (Some p) true)
        | [] => py_raise (IndexError "list index out of range")
        end
  end.
End batch.

(** The archive a batch writes, in the directory created after the
    conversions. *)
Definition zip_path_of (st : FS) : string := tmp_dir (fs_tmp st) ++ "/converted_docs.zip".

(** ** Lemmas *)

Lemma zip_write_ok zp acc p st b :
  fs_files st !! p = Some b ->
  zip_write zp acc p st =
    (inr (acc ++ [(basename p, b)])%list,
     mkFS (<[zp := BZip (acc ++ [(basename p, b)])]> (fs_files st)) (fs_dirs st) (fs_tmp st)).
Proof. intros Hb. unfold zip_write. by rewrite (py_bind_inr _ _ _ _ _ (read_file_ok _ _ _ Hb)). Qed.

(** The loop of lines 98-99: the archive receives one entry per path, in
    order, named by the path's base name and holding its contents. *)
Lemma zip_write_loop zp paths acc st :
  (forall p, p ∈ paths -> p <> zp /\ is_Some (fs_files st !! p)) ->
  fs_files st !! zp = Some (BZip acc) ->
  exists entries,
    py_foldM (zip_write zp) acc paths st =
      (inr (acc ++ entries)%list,
       mkFS (<[zp := BZip (acc ++ entries)]> (fs_files st)) (fs_dirs st) (fs_tmp st)) /\
    map fst entries = map basename paths /\
    Forall2 (fun p e => fs_files st !! p = Some e.2) paths entries.
Proof.
  revert acc st. induction paths as [|p paths IH]; intros acc st Hps Hzp; simpl.
  - exists []. rewrite app_nil_r, insert_id by done. by destruct st.
  - destruct (Hps p ltac:(left)) as [Hne [b Hb]].
    rewrite (py_bind_inr _ _ _ _ _ (zip_write_ok zp acc p st b Hb)).
    edestruct (IH (acc ++ [(basename p, b)])%list
                  (mkFS (<[zp := BZip (acc ++ [(basename p, b)])]> (fs_files st))
                        (fs_dirs st) (fs_tmp st))) as (es & Hrun & Hnames & Hall).
    { intros p' Hp'. destruct (Hps p' ltac:(by right)) as [Hne' Hs].
      split; [done|]. cbn [fs_files]. by rewrite lookup_insert_ne by done. }
    { cbn [fs_files]. by rewrite lookup_insert_eq. }
    exists ((basename p, b) :: es). rewrite Hrun. cbn [fs_files fs_dirs fs_tmp map].
    rewrite insert_insert_eq, <- app_assoc. split_and!; [done|by f_equal|].
    constructor; [done|]. eapply Forall2_impl_elem; [exact Hall|].
    intros p' e Hp' He. cbn [fs_files] in He. rewrite lookup_insert_ne in He; [done|].
    intros Heq. destruct (Hps p' ltac:(by right)) as [Hne'' _]. by subst.
Qed.

(** The archive entry of a converted upload is [<base name>.docx]. *)
Lemma basename_final_path st name :
  basename (final_path_of st name) = base_name_of name ++ ".docx".
Proof.
  unfold final_path_of. apply basename_app_slash.
  rewrite str_has_app, base_name_of_no_slash. done.
Qed.

Section batch_props.
Context `{PdfBackend}.

(** The outputs of a run of conversions: each lies in a temporary
    directory created during the run and exists at its end. *)
Lemma mapM_convert_paths files st paths st1 :
  mapM_runs convert_pdf_to_word files st paths st1 ->
  fs_le st st1 /\
  forall p, p ∈ paths ->
    (exists k rest, p = tmp_dir k ++ String slash rest /\ fs_tmp st <= k < fs_tmp st1) /\
    is_Some (fs_files st1 !! p).
Proof.
  induction 1 as [s|x l s s1 s2 y ys Hx Hl [Hle IH]].
  - split; [reflexivity|]. intros p ?%elem_of_nil. done.
  - apply convert_pdf_to_word_inv in Hx as ((name & _ & ->) & Hy & Htmp & Hle1).
    pose proof Hle as (Hdom & _ & Hk). split; [etrans; [exact Hle1|done]|].
    intros p [-> | Hp]%elem_of_cons.
    + split.
      * eexists (fs_tmp s), _. split; [reflexivity|]. lia.
      * apply elem_of_dom. apply elem_of_dom in Hy. set_solver.
    + destruct (IH p Hp) as [(k & rest & -> & Hk') Hs]. split; [|done].
      exists k, rest. split; [done|lia].
Qed.

(** The outputs of a run of conversions lie in directories numbered from
    the counter at the start of the run. *)
Lemma mapM_convert_dirs files st paths st1 :
  mapM_runs convert_pdf_to_word files st paths st1 ->
  Forall (fun p => exists k rest, p = tmp_dir k ++ String slash rest /\ fs_tmp st <= k) paths.
Proof.
  intros [_ Hpaths]%mapM_convert_paths. apply Forall_forall. intros p Hp.
  destruct (Hpaths p Hp) as [(k & rest & -> & Hk) _]. exists k, rest. split; [done|lia].
Qed.

(** The outputs of a run of conversions are named by the original names
    of the uploads, in order. *)
Lemma mapM_convert_names files st paths st1 :
  mapM_runs convert_pdf_to_word files st paths st1 ->
  map basename paths = map (fun n => base_name_of n ++ ".docx") (omap input_name files).
Proof.
  induction 1 as [s|x l s s1 s2 y ys Hx Hl IH]; [done|].
  apply convert_pdf_to_word_inv in Hx as ((name & Hname & ->) & _).
  simpl. rewrite Hname, basename_final_path. simpl. by f_equal.
Qed.

(** The run of a batch of two uploads or more that all convert: one new
    directory, and the archive written there with one entry per output,
    in order, named by its base name; nothing else changes. *)
Lemma convert_and_enable_zip_run files st paths st1 :
  mapM_runs convert_pdf_to_word files st paths st1 -> 1 < length files ->
  exists entries,
    convert_and_enable (Some files) st =
      (inr (mkUpdate (Some (zip_path_of st1)) true),
       mkFS (<[zip_path_of st1 := BZip entries]> (fs_files st1))
            ({[tmp_dir (fs_tmp st1)]} ∪ fs_dirs st1) (S (fs_tmp st1))) /\
    map fst entries = map basename paths /\
    Forall2 (fun p e => fs_files st1 !! p = Some e.2) paths entries.
Proof.
  intros Hruns Hlen. pose proof (mapM_runs_length _ _ _ _ _ Hruns) as Hl.
  destruct (mapM_convert_paths _ _ _ _ Hruns) as [_ Hpaths].
  unfold convert_and_enable.
  py_bind_step ltac:(apply py_mapM_ok; exact Hruns).
  rewrite bool_decide_true by lia.
  fs_step_eq. rewrite path_join_tmp by done. fs_step_eq.
  edestruct (zip_write_loop (zip_path_of st1) paths []
               (mkFS (<[zip_path_of st1 := BZip []]> (fs_files st1))
                     ({[tmp_dir (fs_tmp st1)]} ∪ fs_dirs st1) (S (fs_tmp st1))))
    as (es & Hrun & Hnames & Hall).
  { intros p Hp. destruct (Hpaths p Hp) as [(k & rest & -> & Hk) Hs]. split.
    - apply tmp_dir_child_ne. lia.
    - cbn [fs_files]. rewrite lookup_insert_ne; [done|].
      apply not_eq_sym, tmp_dir_child_ne. lia. }
  { cbn [fs_files]. by rewrite lookup_insert_eq. }
  fs_step ltac:(exact Hrun).
  exists es. split_and!; [by rewrite insert_insert_eq|done|].
  eapply Forall2_impl_elem; [exact Hall|]. intros p e Hp He.
  cbn [fs_files] in He. destruct (Hpaths p Hp) as [(k & rest & -> & Hk) _].
  rewrite lookup_insert_ne in He; [done|]. apply tmp_dir_child_ne. lia.
Qed.

(** C26: the outputs of a batch are pairwise distinct: every conversion
    writes into its own new temporary directory, so no output overwrites
    another even when the uploads have the same name. *)
Theorem convert_outputs_distinct files st paths st1 :
  mapM_runs convert_pdf_to_word files st paths st1 -> NoDup paths.
Proof.
  induction 1 as [s|x l s s1 s2 y ys Hx Hl IH]; constructor; [|done].
  apply mapM_convert_dirs in Hl.
  apply convert_pdf_to_word_inv in Hx as ((name & _ & ->) & _ & Htmp & _).
  intros Hin. eapply Forall_forall in Hl; [|exact Hin].
  destruct Hl as (k & rest & Heq & Hk).
  unfold final_path_of, workdir_of in Heq. revert Heq. apply tmp_dir_child_ne. lia.
Qed.

(** C4: with two uploads or more that all convert, the download button
    gets [converted_docs.zip] in a new temporary directory, enabled, and
    the archive holds one entry per output, in upload order, named by the
    output's base name and holding its contents. *)
Theorem convert_and_enable_zip files st paths st1 :
  mapM_runs convert_pdf_to_word files st paths st1 -> 1 < length files ->
  exists st2 entries,
    convert_and_enable (Some files) st = (inr (mkUpdate (Some (zip_path_of st1)) true), st2) /\
    fs_files st2 !! zip_path_of st1 = Some (BZip entries) /\
    map fst entries = map basename paths /\
    Forall2 (fun p e => fs_files st1 !! p = Some e.2) paths entries.
Proof.
  intros Hruns Hlen. destruct (convert_and_enable_zip_run _ _ _ _ Hruns Hlen) as (es & -> & Hn & Hall).
  eexists _, es. split_and!; [done| |done..]. cbn [fs_files]. by rewrite lookup_insert_eq.
Qed.

(** C15: with one upload the button gets the converted [.docx] itself,
    enabled, and the state is the one the conversion left. *)
Theorem convert_and_enable_single x st p st' :
  convert_pdf_to_word x st = (inr p, st') ->
  convert_and_enable (Some [x]) st = (inr (mkUpdate (Some p) true), st').
Proof.
  intros Hx. unfold convert_and_enable.
  py_bind_step ltac:(apply py_mapM_ok; econstructor; [exact Hx|constructor]).
  done.
Qed.

(** C14: the first upload whose conversion raises aborts the batch with
    its exception; the uploads after it are not converted and no archive
    is written. *)
Theorem convert_and_enable_abort pre x post st paths s1 e s2 :
  mapM_runs convert_pdf_to_word pre st paths s1 ->
  convert_pdf_to_word x s1 = (inl e, s2) ->
  convert_and_enable (Some (pre ++ x :: post)%list) st = (inl e, s2).
Proof.
  intros Hpre Hx. unfold convert_and_enable, py_bind at 1.
  by rewrite (py_mapM_fail _ _ _ _ _ _ _ _ _ Hpre Hx).
Qed.

Lemma convert_and_enable_mono files : py_mono fs_le (convert_and_enable files).
Proof.
  unfold convert_and_enable, zip_write. py_mono_auto.
Qed.

(** A successful batch enables the button on a file that exists, in a
    temporary directory created by the batch. *)
Lemma convert_and_enable_inv files st upd st' :
  convert_and_enable files st = (inr upd, st') ->
  exists p k rest, upd = mkUpdate (Some p) true /\ is_Some (fs_files st' !! p) /\
    p = tmp_dir k ++ String slash rest /\ fs_tmp st <= k < fs_tmp st'.
Proof.
  destruct files as [files|]; [|done]. unfold convert_and_enable.
  destruct (py_mapM convert_pdf_to_word files st) as [[e|paths] st1] eqn:Hm;
    unfold py_bind at 1; rewrite Hm; [done|].
  apply py_mapM_ok, mapM_convert_paths in Hm as [(_ & _ & Hle0) Hpaths].
  case_bool_decide.
  - fs_step_eq. rewrite path_join_tmp by done. fs_step_eq. unfold py_bind at 1.
    match goal with |- context [py_foldM ?f ?a ?l ?s] =>
      pose proof (py_mono_foldM fs_le f a l ltac:(intros; unfold zip_write; py_mono_auto) s) as Hle;
      destruct (py_foldM f a l s) as [[e|es] st2] end; [done|].
    intros [= <- <-]. destruct Hle as (Hdom & _ & Htmp). cbn in Hdom, Htmp.
    eexists _, (fs_tmp st1), _. split_and!; [done| |done|lia|lia].
    apply elem_of_dom, Hdom. rewrite dom_insert_L. set_solver.
  - destruct paths as [|p paths]; [done|]. intros [= <- <-].
    destruct (Hpaths p ltac:(by left)) as [(k & rest & -> & Hk) Hp].
    eexists _, k, rest. split_and!; [done..|lia|lia].
Qed.

(** C24: with two uploads or more that all convert, the archive's entries
    are named [<base name>.docx] after the original names of the uploads,
    in upload order: uploads with the same base name from different
    folders give entries with the same name in the archive. *)
Theorem convert_and_enable_zip_names files st paths st1 :
  mapM_runs convert_pdf_to_word files st paths st1 -> 1 < length files ->
  exists entries,
    fs_files (snd (convert_and_enable (Some files) st)) !! zip_path_of st1 = Some (BZip entries) /\
    map fst entries = map (fun n => base_name_of n ++ ".docx") (omap input_name files).
Proof.
  intros Hruns Hlen.
  destruct (convert_and_enable_zip_run _ _ _ _ Hruns Hlen) as (es & -> & Hnames & _).
  exists es. cbn [snd fs_files]. rewrite lookup_insert_eq.
  split; [done|]. by rewrite Hnames, (mapM_convert_names _ _ _ _ Hruns).
Qed.
End batch_props.


(** ** Concrete runs and witnesses *)

Lemma convert_and_enable_zip_witness :
  exists paths st1,
    mapM_runs (@convert_pdf_to_word demo_backend) [InStr "/up/a.pdf"; InStr "/up/b.pdf"]
              demo_fs paths st1 /\
    exists st2 entries,
      @convert_and_enable demo_backend (Some [InStr "/up/a.pdf"; InStr "/up/b.pdf"]) demo_fs =
        (inr (mkUpdate (Some (zip_path_of st1)) true), st2) /\
      fs_files st2 !! zip_path_of st1 = Some (BZip entries) /\
      map fst entries = map basename paths /\
      Forall2 (fun p e => fs_files st1 !! p = Some e.2) paths entries.
Proof.
  eexists _, _.
  assert (H : mapM_runs (@convert_pdf_to_word demo_backend) [InStr "/up/a.pdf"; InStr "/up/b.pdf"]
                demo_fs _ _) by (apply py_mapM_ok; reflexivity).
  split; [exact H|]. apply (convert_and_enable_zip _ _ _ _ H). simpl. lia.
Defined.

Lemma convert_and_enable_single_witness :
  exists p st',
    @convert_pdf_to_word demo_backend (InStr "/up/report.pdf") demo_fs = (inr p, st') /\
    @convert_and_enable demo_backend (Some [InStr "/up/report.pdf"]) demo_fs =
      (inr (mkUpdate (Some p) true), st').
Proof.
  destruct (@convert_pdf_to_word demo_backend (InStr "/up/report.pdf") demo_fs)
    as [[e|p] st'] eqn:H; [vm_compute in H; discriminate|].
  exists p, st'. split; [reflexivity | exact (convert_and_enable_single _ _ _ _ H)].
Defined.

Lemma convert_and_enable_abort_witness :
  exists paths s1 e s2,
    mapM_runs (@convert_pdf_to_word demo_backend) [InStr "/up/a.pdf"] demo_fs paths s1 /\
    @convert_pdf_to_word demo_backend (InStr "/up/broken.pdf") s1 = (inl e, s2) /\
    @convert_and_enable demo_backend
      (Some ([InStr "/up/a.pdf"] ++ InStr "/up/broken.pdf" :: [InStr "/up/b.pdf"])%list) demo_fs =
      (inl e, s2).
Proof.
  destruct (py_mapM (@convert_pdf_to_word demo_backend) [InStr "/up/a.pdf"] demo_fs)
    as [[e1|paths] s1] eqn:H1; [vm_compute in H1; discriminate|].
  destruct (@convert_pdf_to_word demo_backend (InStr "/up/broken.pdf") s1)
    as [[e|p] s2] eqn:H2.
  - apply py_mapM_ok in H1. exists paths, s1, e, s2.
    split_and!; [exact H1 | exact H2 | exact (convert_and_enable_abort _ _ _ _ _ _ _ _ H1 H2)].
  - exfalso. injection H1 as <- <-. vm_compute in H2. discriminate.
Defined.

Lemma convert_outputs_distinct_witness :
  exists paths st1,
    mapM_runs (@convert_pdf_to_word demo_backend) [InStr "/up/a.pdf"; InStr "/other/a.pdf"]
              demo_fs paths st1 /\ NoDup paths.
Proof.
  eexists _, _.
  assert (H : mapM_runs (@convert_pdf_to_word demo_backend) [InStr "/up/a.pdf"; InStr "/other/a.pdf"]
                demo_fs _ _) by (apply py_mapM_ok; reflexivity).
  split; [exact H | exact (convert_outputs_distinct _ _ _ _ H)].
Defined.

Lemma convert_and_enable_zip_names_witness :
  exists paths st1,
    mapM_runs (@convert_pdf_to_word demo_backend) [InStr "/up/a.pdf"; InStr "/other/a.pdf"]
              demo_fs paths st1 /\
    exists entries,
      fs_files (snd (@convert_and_enable demo_backend
                       (Some [InStr "/up/a.pdf"; InStr "/other/a.pdf"]) demo_fs))
        !! zip_path_of st1 = Some (BZip entries) /\
      map fst entries = ["a.docx"; "a.docx"].
Proof.
  eexists _, _.
  assert (H : mapM_runs (@convert_pdf_to_word demo_backend) [InStr "/up/a.pdf"; InStr "/other/a.pdf"]
                demo_fs _ _) by (apply py_mapM_ok; reflexivity).
  split; [exact H|]. exact (convert_and_enable_zip_names _ _ _ _ H ltac:(simpl; lia)).
Defined.
