(* ===== verification/UiShell.v ===== *)
(** * The Gradio interface (src/app.py, lines 104-155)

    The page holds the uploaded files ([gr.Files], [None] when empty), the
    download button ([gr.DownloadButton], created with [value=None,
    interactive=False]) and the file system the handlers share.  Two
    events change it: [pdf_inputs.change] runs [reset_download], and
    [convert_btn.click] runs [convert_and_enable] on the current uploads.
    Gradio applies the update a handler returns to the button; when the
    handler raises, it shows the error and leaves the button as it was.
    [ui_step] is one event, [ui_reachable] the states reachable from the
    page as it loads. *)

From S2P Require Import Prelude PyStr LinkExtract Docx PyFs Convert Batch.
Local Open Scope string_scope.

Record UiState := mkUi {
  ui_files : option (list PdfInput);
  ui_button : DownloadUpdate;
  ui_fs : FS
}.

(** Lines 104-108. *)
Definition reset_download {A} (_ : A) : DownloadUpdate := mkUpdate None false.

(** Lines 122-141: no upload, the button without a value and disabled. *)
Definition ui_init (fs : FS) : UiState := mkUi None (mkUpdate None false) fs.

Inductive UiEvent :=
  | UploadChange (files : option (list PdfInput))
  | ConvertClick.

Section ui.
Context `{PdfBackend}.

(** Lines 144-155: the two event handlers as Gradio runs them. *)
Definition ui_step (s : UiState) (ev : UiEvent) : UiState :=
  match ev with
  | UploadChange files => mkUi files (reset_download files) (ui_fs s)
  | ConvertClick =>
      match convert_and_enable (ui_files s) (ui_fs s) with
      | (inr upd, fs') => mkUi (ui_files s) upd fs'
      | (inl _, fs') => mkUi (ui_files s) (ui_button s) fs'
      end
  end.

Inductive ui_reachable (fs0 : FS) : UiState -> Prop :=
  | reach_init : ui_reachable fs0 (ui_init fs0)
  | reach_step s ev : ui_reachable fs0 s -> ui_reachable fs0 (ui_step s ev).

(** An enabled button points into a temporary directory created before
    the current state: its number is below the counter of [mkdtemp]. *)
Definition ui_fresh (s : UiState) : Prop :=
  forall p, ui_button s = mkUpdate (Some p) true ->
  exists k rest, p = tmp_dir k ++ String slash rest /\ k < fs_tmp (ui_fs s).

(** The button is disabled without a value, or enabled on an existing
    file that converting the current uploads produced. *)
Definition ui_inv (s : UiState) : Prop :=
  match ui_button s with
  | mkUpdate None false => True
  | mkUpdate (Some p) true =>
      is_Some (fs_files (ui_fs s) !! p) /\
      exists st st', convert_and_enable (ui_files s) st = (inr (mkUpdate (Some p) true), st')
  | _ => False
  end.

Lemma ui_step_fs_le s ev : fs_le (ui_fs s) (ui_fs (ui_step s ev)).
Proof.
  destruct ev as [files|]; simpl; [reflexivity|].
  pose proof (convert_and_enable_mono (ui_files s) (ui_fs s)) as Hle.
  destruct (convert_and_enable (ui_files s) (ui_fs s)) as [[e|upd] fs']; exact Hle.
Qed.

(** C5: in every reachable state the download button is either disabled
    with no value, or enabled on a file that exists and that a
    conversion of the uploads currently on the page returned. *)
Theorem ui_reachable_inv fs0 s : ui_reachable fs0 s -> ui_inv s.
Proof.
  induction 1 as [|s [files|] Hreach IH]; [done|done|]. simpl.
  pose proof (ui_step_fs_le s ConvertClick) as Hle. simpl in Hle.
  destruct (convert_and_enable (ui_files s) (ui_fs s)) as [[e|upd] fs'] eqn:Hrun; simpl in *.
  - unfold ui_inv in *. destruct (ui_button s) as [[p|] [|]]; try done.
    destruct IH as [[b Hp] Hconv]. split; [|done].
    apply elem_of_dom, (proj1 Hle), elem_of_dom. by exists b.
  - destruct (convert_and_enable_inv _ _ _ _ Hrun) as (p & k & rest & -> & Hp & _).
    unfold ui_inv. simpl. split; [done|]. by eexists _, _.
Qed.
Lemma ui_reachable_fresh fs0 s : ui_reachable fs0 s -> ui_fresh s.
Proof.
  induction 1 as [|s [files|] Hreach IH]; [done|done|]. intros p. simpl.
  pose proof (ui_step_fs_le s ConvertClick) as (_ & _ & Hle). simpl in Hle.
  destruct (convert_and_enable (ui_files s) (ui_fs s)) as [[e|upd] fs'] eqn:Hrun; simpl in *.
  - intros (k & rest & -> & Hk)%IH. exists k, rest. split; [done|lia].
  - intros ->. destruct (convert_and_enable_inv _ _ _ _ Hrun) as (p' & k & rest & [= ->] & _ & -> & Hk).
    exists k, rest. split; [done|lia].
Qed.

(** C21: pressing Convert again while the button is enabled, when the
    conversion succeeds, moves the button to a new file in a new temporary
    directory: the button goes from enabled to enabled on another path, a
    transition the specification's state machine (disabled, enabled,
    disabled) does not have. *)
Theorem ui_reconvert_moves_download fs0 s p upd :
  ui_reachable fs0 s -> ui_button s = mkUpdate (Some p) true ->
  fst (convert_and_enable (ui_files s) (ui_fs s)) = inr upd ->
  exists p', ui_button (ui_step s ConvertClick) = mkUpdate (Some p') true /\ p' <> p /\
    is_Some (fs_files (ui_fs (ui_step s ConvertClick)) !! p').
Proof.
  intros Hreach Hbtn Hrun. destruct (ui_reachable_fresh _ _ Hreach p Hbtn) as (k & rest & -> & Hk).
  simpl. destruct (convert_and_enable (ui_files s) (ui_fs s)) as [[e|upd'] fs'] eqn:E; [done|].
  simpl in Hrun. injection Hrun as ->.
  destruct (convert_and_enable_inv _ _ _ _ E) as (p' & k' & rest' & -> & Hp' & -> & Hk').
  exists (tmp_dir k' ++ String slash rest'). split_and!; [done| |done].
  apply tmp_dir_child_ne. lia.
Qed.
End ui.

(** ** Concrete runs and witnesses *)

Definition ui_run `{PdfBackend} (s : UiState) (evs : list UiEvent) : UiState := foldl ui_step s evs.

Lemma ui_reachable_run `{PdfBackend} fs0 evs : ui_reachable fs0 (ui_run (ui_init fs0) evs).
Proof.
  unfold ui_run. generalize (reach_init fs0). generalize (ui_init fs0).
  induction evs as [|ev evs IH]; intros s Hs; simpl; [done|]. apply IH. by constructor.
Qed.

Lemma ui_reachable_inv_witness :
  @ui_inv demo_backend
    (@ui_run demo_backend (ui_init demo_fs) [UploadChange (Some [InStr "/up/a.pdf"]); ConvertClick]).
Proof. apply (@ui_reachable_inv demo_backend demo_fs). apply ui_reachable_run. Defined.

Lemma ui_reconvert_moves_download_witness :
  let s := @ui_run demo_backend (ui_init demo_fs) [UploadChange (Some [InStr "/up/a.pdf"]); ConvertClick] in
  exists p', ui_button (@ui_step demo_backend s ConvertClick) = mkUpdate (Some p') true /\
    p' <> "/tmp/tmp0/a.docx" /\
    is_Some (fs_files (ui_fs (@ui_step demo_backend s ConvertClick)) !! p').
Proof.
  intros s. apply (@ui_reconvert_moves_download demo_backend demo_fs s "/tmp/tmp0/a.docx"
                    (mkUpdate (Some "/tmp/tmp1/a.docx") true)).
  - apply ui_reachable_run.
  - vm_compute. reflexivity.
  - vm_compute. reflexivity.
Defined.
